(** * Marketing statement classifier: a verified model of [streamlit_app.py]

    The development follows the three helper functions of the application,
    [classify_statement], [enrich_dataframe] and [get_csv_download], together
    with the module-level keyword table [dictionaries].

    - Python text ([str]) is a list of Unicode code points.
    - A cell of a table is a Python value of one of the kinds a CSV reader
      produces, or a list of labels as the classifier returns.
    - A [DataFrame] is a mutable object: frames live in a heap and the
      program handles references to them, so that copying and in-place
      column assignment are what they are in the source.
    - Exceptions are the error outcome of a small state-and-error monad. *)

From Stdlib Require Import NArith ZArith List String Ascii Bool Lia DecimalString.
From Stdlib.Strings Require Import Byte.
From stdpp Require Import base list.
Import ListNotations.

Local Open Scope N_scope.

(** ** Text *)

(** A [str] is its sequence of code points. *)
Definition pystr := list N.

(** Literals of the source, which are ASCII unless said otherwise. *)
Definition py (s : string) : pystr := map N_of_ascii (list_ascii_of_string s).
Arguments py s%_string.

(** [a == b] on [str]. *)
Fixpoint str_eqb (a b : pystr) : bool :=
  match a, b with
  | [], [] => true
  | x :: a', y :: b' => (x =? y) && str_eqb a' b'
  | _, _ => false
  end.

(** [s.startswith(kw)]. *)
Fixpoint startswith (kw s : pystr) : bool :=
  match kw, s with
  | [], _ => true
  | k :: kw', c :: s' => (k =? c) && startswith kw' s'
  | _ :: _, [] => false
  end.

(** [kw in s] for two strings: [kw] occurs in [s] as a contiguous run. *)
Fixpoint contains (kw s : pystr) : bool :=
  startswith kw s ||
  match s with
  | [] => false
  | _ :: s' => contains kw s'
  end.

(** [x in l] for a list of strings. *)
Definition str_mem (x : pystr) (l : list pystr) : bool := existsb (str_eqb x) l.

(** A lowercase table sends the non-ASCII code points it is consulted on
    outside ASCII. *)
Definition lowercase_stays_high (table : N -> list N) : Prop :=
  forall c x,
    128 <= c -> c <> 0x130 -> c <> 0x212A ->
    In x (table c) -> 128 <= x.

Section Classifier.

(** The Unicode character database is Python's, not the application's.  What
    the application can observe of it on ASCII text is written out below; the
    rest of the tables is a parameter of the development.  The lowercase
    table is taken code point by code point: the one positional rule of
    [str.lower] (the final form of the Greek sigma) chooses between two
    non-ASCII code points. *)
Variable unicode_lower : N -> list N.
Variable unicode_isprintable : N -> bool.

(** Outside the two code points singled out in [lower_cp], lowercasing a
    non-ASCII code point never produces an ASCII one. *)
Hypothesis unicode_lower_nonascii : lowercase_stays_high unicode_lower.

(** Lowercase mapping of one code point.  [U+0130] (capital I with dot above)
    becomes [i] followed by a combining dot, [U+212A] (Kelvin sign) becomes
    [k]; these are the only non-ASCII code points whose lowercase form has an
    ASCII character. *)
Definition lower_cp (c : N) : list N :=
  if (65 <=? c) && (c <=? 90) then [c + 32]
  else if c <? 128 then [c]
  else if c =? 0x130 then [0x69; 0x307]
  else if c =? 0x212A then [0x6B]
  else unicode_lower c.

(** [s.lower()]. *)
Definition lower (s : pystr) : pystr := flat_map lower_cp s.

(** ** Marketing keyword dictionaries *)

(** [dictionaries: dict[str, set[str]]].  A [dict] iterates in insertion
    order, so it is an association list; each phrase set is listed in the
    order of the literal (only membership tests are made on it). *)
Definition dictionaries : list (pystr * list pystr) :=
  [ (py "urgency_marketing",
     map py
       [ "limited"; "limited time"; "limited run"; "limited edition"; "order now";
         "last chance"; "hurry"; "while supplies last"; "before they're gone";
         "selling out"; "selling fast"; "act now"; "don't wait"; "today only";
         "expires soon"; "final hours"; "almost gone" ]%string);
    (py "exclusive_marketing",
     map py
       [ "exclusive"; "exclusively"; "exclusive offer"; "exclusive deal";
         "members only"; "vip"; "special access"; "invitation only";
         "premium"; "privileged"; "limited access"; "select customers";
         "insider"; "private sale"; "early access" ]%string) ].

(** [dictionaries.keys()], in iteration order. *)
Definition dict_keys (d : list (pystr * list pystr)) : list pystr := map fst d.

(** The phrases listed under a label (none for a label that is not a key). *)
Fixpoint dict_get (d : list (pystr * list pystr)) (label : pystr) : list pystr :=
  match d with
  | [] => []
  | (k, v) :: d' => if str_eqb k label then v else dict_get d' label
  end.

(** ** Python values *)

(** The values a table cell holds: what a CSV reader yields ([str], [int],
    [float], [bool]; a missing field is the float [nan]) and the list of
    labels [classify_statement] returns.  A float is identified with its
    [repr], which determines it. *)
Inductive pyval :=
| VStr (s : pystr)
| VInt (z : Z)
| VFloat (repr : pystr)
| VBool (b : bool)
| VList (items : list pystr).

Definition nan : pyval := VFloat (py "nan").

Definition hex_digit (d : N) : N := if d <? 10 then 48 + d else 87 + d.

(** [n] written with [width] lowercase hexadecimal digits. *)
Fixpoint hex_fixed (width : nat) (n : N) : pystr :=
  match width with
  | O => []
  | S w => hex_fixed w (n / 16) ++ [hex_digit (n mod 16)]
  end.

(** [repr(s)] for a [str]: the quote is the single quote (39) unless the text
    has a single quote and no double quote (34); backslash (92), the quote
    and control characters are escaped, and so are the code points the
    character database calls non-printable.  In the literals below the
    backslash stands for itself. *)
Definition repr_escape (quote c : N) : pystr :=
  if (c =? quote) || (c =? 92) then [92; c]
  else if c =? 9 then py "\t"
  else if c =? 10 then py "\n"
  else if c =? 13 then py "\r"
  else if (c <? 32) || (c =? 127) then py "\x" ++ hex_fixed 2 c
  else if c <? 127 then [c]
  else if unicode_isprintable c then [c]
  else if c <? 256 then py "\x" ++ hex_fixed 2 c
  else if c <? 65536 then py "\u" ++ hex_fixed 4 c
  else py "\U" ++ hex_fixed 8 c.

Definition repr_str (s : pystr) : pystr :=
  let quote := if contains [39] s && negb (contains [34] s) then 34 else 39 in
  quote :: flat_map (repr_escape quote) s ++ [quote].

(** [sep.join(parts)]. *)
Fixpoint join (sep : pystr) (parts : list pystr) : pystr :=
  match parts with
  | [] => []
  | [p] => p
  | p :: rest => p ++ sep ++ join sep rest
  end.

(** [str(v)]. *)
Definition py_str (v : pyval) : pystr :=
  match v with
  | VStr s => s
  | VInt z => py (NilZero.string_of_int (Z.to_int z))
  | VFloat r => r
  | VBool true => py "True"
  | VBool false => py "False"
  | VList items => py "[" ++ join (py ", ") (map repr_str items) ++ py "]"
  end.

(** ** Frames, the heap and exceptions *)

(** A [pd.DataFrame] with the default row labels [0 .. nrows-1]: the columns
    in their order, each a label and its values from the first row to the
    last. *)
Record DataFrame := mkFrame {
  nrows : nat;
  columns : list (pystr * list pyval)
}.

(** A reference to a frame object. *)
Definition ref := nat.

(** The program state: the frame objects allocated so far, and the record of
    the values [classify_statement] has been called on (a ghost component:
    the source keeps no such record). *)
Record state := mkState {
  heap : list DataFrame;
  classified : list pyval
}.

(** The exceptions that can be raised.  [BadReference] stands for the use of
    a reference to no object, which Python rules out: every statement below
    is about a reference that is allocated. *)
Inductive exn :=
| ValueError (msg : pystr)
| KeyError (key : pystr)
| TypeError
| LookupError (encoding : pystr)
| UnicodeEncodeError (position : nat)
| BadReference.

Inductive result (A : Type) :=
| Ok (a : A)
| Raise (e : exn).
#[global] Arguments Ok {A} a.
#[global] Arguments Raise {A} e.

(** Computations that read and write the state and may raise. *)
Definition M (A : Type) : Type := state -> state * result A.

Definition ret {A} (a : A) : M A := fun st => (st, Ok a).

Definition raise {A} (e : exn) : M A := fun st => (st, Raise e).

Definition bind {A B} (c : M A) (k : A -> M B) : M B :=
  fun st =>
    match c st with
    | (st', Ok a) => k a st'
    | (st', Raise e) => (st', Raise e)
    end.

Notation "x <- c ;; k" := (bind c (fun x => k))
  (at level 100, c at next level, right associativity).
Notation "c ;;; k" := (bind c (fun _ => k))
  (at level 100, right associativity).

(** [for x in l: body(x)]. *)
Fixpoint for_each {A} (l : list A) (body : A -> M unit) : M unit :=
  match l with
  | [] => ret tt
  | x :: l' => body x ;;; for_each l' body
  end.

(** [Series.apply(f)]: [f] is called on each value in row order. *)
Fixpoint series_apply (f : pyval -> M pyval) (values : list pyval) : M (list pyval) :=
  match values with
  | [] => ret []
  | v :: rest =>
      y <- f v ;;
      ys <- series_apply f rest ;;
      ret (y :: ys)
  end.

(** *** Frames as values *)

(** [df.columns]. *)
Definition column_names (f : DataFrame) : list pystr := map fst (columns f).

(** The values under a column label. *)
Fixpoint get_column (cols : list (pystr * list pyval)) (key : pystr)
  : option (list pyval) :=
  match cols with
  | [] => None
  | (k, vs) :: cols' => if str_eqb k key then Some vs else get_column cols' key
  end.

(** Alignment of a series on the row labels [0 .. n-1]: rows the series lacks
    are filled with [nan], rows beyond the frame are dropped. *)
Definition align (n : nat) (values : list pyval) : list pyval :=
  take n values ++ replicate (n - length values) nan.

(** Column assignment: an existing label keeps its position and gets the new
    values, a new label is appended as the last column. *)
Definition set_column (f : DataFrame) (key : pystr) (values : list pyval) : DataFrame :=
  let vs := align (nrows f) values in
  if str_mem key (column_names f)
  then mkFrame (nrows f)
         (map (fun kv => if str_eqb (fst kv) key then (fst kv, vs) else kv) (columns f))
  else mkFrame (nrows f) (columns f ++ [(key, vs)]).

(** *** Frames as objects *)

Definition get_frame (r : ref) : M DataFrame :=
  fun st =>
    match heap st !! r with
    | Some f => (st, Ok f)
    | None => (st, Raise BadReference)
    end.

Definition put_frame (r : ref) (f : DataFrame) : M unit :=
  fun st => (mkState (<[r := f]> (heap st)) (classified st), Ok tt).

Definition new_frame (f : DataFrame) : M ref :=
  fun st => (mkState (heap st ++ [f]) (classified st), Ok (length (heap st))).

(** [df.columns]. *)
Definition df_columns (df : ref) : M (list pystr) :=
  f <- get_frame df ;;
  ret (column_names f).

(** [df.copy()]: a new object with the same rows and columns. *)
Definition df_copy (df : ref) : M ref :=
  f <- get_frame df ;;
  new_frame f.

(** [df[key]]. *)
Definition df_getitem (df : ref) (key : pystr) : M (list pyval) :=
  f <- get_frame df ;;
  match get_column (columns f) key with
  | Some vs => ret vs
  | None => raise (KeyError key)
  end.

(** [df[key] = values]: the object is updated in place. *)
Definition df_setitem (df : ref) (key : pystr) (values : list pyval) : M unit :=
  f <- get_frame df ;;
  put_frame df (set_column f key values).

(** ** Helper functions *)

(** The loop of [classify_statement]: labels are appended in the iteration
    order of the dictionary. *)
Definition matched_labels (d : list (pystr * list pystr)) (text_lower : pystr)
  : list pystr :=
  fold_left
    (fun matched entry =>
       let '(label, keywords) := entry in
       if existsb (fun kw => contains kw text_lower) keywords
       then matched ++ [label]
       else matched)
    d [].

(** The ghost record of a call of [classify_statement]. *)
Definition note_classified (text : pyval) : M unit :=
  fun st => (mkState (heap st) (classified st ++ [text]), Ok tt).

(** [classify_statement(text)]: the dictionary names whose keywords appear in
    the text. *)
Definition classify_statement (text : pyval) : M (list pystr) :=
  note_classified text ;;;
  let text_lower := lower (py_str text) in
  ret (matched_labels dictionaries text_lower).

(** [lbl in cats]. *)
Definition py_in (lbl : pystr) (cats : pyval) : M bool :=
  match cats with
  | VList items => ret (str_mem lbl items)
  | VStr s => ret (contains lbl s)
  | _ => raise TypeError
  end.

Definition statement_column : pystr := py "Statement".
Definition labels_column : pystr := py "labels".
Definition missing_statement_message : pystr :=
  py "Input file must contain a 'Statement' column.".

(** [enrich_dataframe(df)]: add label columns to a copy of [df] and return
    the copy. *)
Definition enrich_dataframe (df : ref) : M ref :=
  names <- df_columns df ;;
  if negb (str_mem statement_column names)
  then raise (ValueError missing_statement_message)
  else
    df <- df_copy df ;;
    statements <- df_getitem df statement_column ;;
    labels <- series_apply
                (fun text => l <- classify_statement text ;; ret (VList l))
                statements ;;
    df_setitem df labels_column labels ;;;
    for_each (dict_keys dictionaries)
      (fun label =>
         cats_series <- df_getitem df labels_column ;;
         flags <- series_apply
                    (fun cats => b <- py_in label cats ;; ret (VBool b))
                    cats_series ;;
         df_setitem df label flags) ;;;
    ret df.

(** ** Export *)

(** *** [DataFrame.to_csv(index=False)] *)

(** [os.linesep], the line terminator of the CSV writer (POSIX). *)
Definition os_linesep : pystr := [10].

(** A field is quoted when it has the delimiter, the quote character or a
    line break (minimal quoting). *)
Definition csv_special (c : N) : bool :=
  (c =? 44) || (c =? 34) || (c =? 10) || (c =? 13).

Definition csv_field (field : pystr) : pystr :=
  if existsb csv_special field
  then 34 :: flat_map (fun c => if c =? 34 then [34; 34] else [c]) field ++ [34]
  else field.

(** One record: the fields separated by commas, then the line terminator.  A
    record made of one empty field is written as an empty quoted field. *)
Definition csv_row (fields : list pystr) : pystr :=
  match fields with
  | [ [] ] => [34; 34]
  | _ => join [44] (map csv_field fields)
  end ++ os_linesep.

(** The text of a cell: a missing value is the empty field, any other value
    is its [str]. *)
Definition csv_cell (v : pyval) : pystr :=
  match v with
  | VFloat r => if str_eqb r (py "nan") then [] else r
  | _ => py_str v
  end.

(** The cells of row [i], in column order. *)
Definition row_cells (f : DataFrame) (i : nat) : list pyval :=
  map (fun kv => nth i (snd kv) nan) (columns f).

(** The header record, then one record per row. *)
Definition to_csv (f : DataFrame) : pystr :=
  csv_row (column_names f) ++
  flat_map (fun i => csv_row (map csv_cell (row_cells f i))) (seq 0 (nrows f)).

(** *** [str.encode] *)

Definition byte_of_N (n : N) : byte :=
  match Byte.of_N n with
  | Some b => b
  | None => x00
  end.

(** The UTF-8 form of one code point; surrogates have none. *)
Definition utf8_cp (c : N) : option (list byte) :=
  if c <? 0x80 then Some [byte_of_N c]
  else if c <? 0x800 then
    Some [byte_of_N (0xC0 + c / 64); byte_of_N (0x80 + c mod 64)]
  else if c <? 0x10000 then
    if (0xD800 <=? c) && (c <=? 0xDFFF) then None
    else Some [byte_of_N (0xE0 + c / 4096);
               byte_of_N (0x80 + (c / 64) mod 64);
               byte_of_N (0x80 + c mod 64)]
  else if c <? 0x110000 then
    Some [byte_of_N (0xF0 + c / 262144);
          byte_of_N (0x80 + (c / 4096) mod 64);
          byte_of_N (0x80 + (c / 64) mod 64);
          byte_of_N (0x80 + c mod 64)]
  else None.

(** Strict UTF-8 encoding; [position] is the index of the current code point
    in the whole text, reported when it cannot be encoded. *)
Fixpoint utf8_encode (position : nat) (s : pystr) : result (list byte) :=
  match s with
  | [] => Ok []
  | c :: rest =>
      match utf8_cp c with
      | None => Raise (UnicodeEncodeError position)
      | Some bytes =>
          match utf8_encode (S position) rest with
          | Ok tail => Ok (bytes ++ tail)
          | Raise e => Raise e
          end
      end
  end.

Definition ascii_isalnum (c : N) : bool :=
  ((48 <=? c) && (c <=? 57)) || ((65 <=? c) && (c <=? 90)) || ((97 <=? c) && (c <=? 122)).

Definition ascii_tolower (c : N) : N :=
  if (65 <=? c) && (c <=? 90) then c + 32 else c.

(** Normalisation of an encoding name: ASCII letters and digits and the dot
    are kept, in lowercase; every run of other characters between two kept
    ones becomes one underscore. *)
Fixpoint normalize_encoding (encoding : pystr) (punct : bool) (acc : pystr) : pystr :=
  match encoding with
  | [] => acc
  | c :: rest =>
      if ascii_isalnum c || (c =? 46)
      then
        let acc1 :=
          match acc with
          | [] => acc
          | _ :: _ => if punct then acc ++ [95] else acc
          end in
        normalize_encoding rest false (acc1 ++ [ascii_tolower c])
      else normalize_encoding rest true acc
  end.

(** The names of the UTF-8 codec. *)
Definition utf8_names : list pystr :=
  [ py "utf_8"; py "utf8"; py "u8"; py "utf"; py "utf8_ucs2"; py "utf8_ucs4";
    py "cp65001" ].

(** [s.encode(encoding)].  Of the codec registry the UTF-8 entries are
    modelled; no other name occurs in the application. *)
Definition str_encode (s : pystr) (encoding : pystr) : M (list byte) :=
  if str_mem (normalize_encoding encoding false []) utf8_names
  then fun st => (st, utf8_encode 0 s)
  else raise (LookupError encoding).

(** *** [pathlib.Path(name).stem] *)

(** [s.split(sep)] for a one-character separator. *)
Fixpoint split_on (sep : N) (s : pystr) : list pystr :=
  match s with
  | [] => [ [] ]
  | c :: rest =>
      if c =? sep then [] :: split_on sep rest
      else
        match split_on sep rest with
        | [] => [ [c] ]
        | part :: parts => (c :: part) :: parts
        end
  end.

(** The parts of a POSIX path: empty components and single dots are
    dropped. *)
Definition path_parts (path : pystr) : list pystr :=
  List.filter
    (fun part => negb (str_eqb part []) && negb (str_eqb part [46]))
    (split_on 47 path).

(** [Path(path).name]: the final component, empty when there is none. *)
Definition path_name (path : pystr) : pystr := default [] (last (path_parts path)).

(** [name.rfind('.')]. *)
Fixpoint rfind_dot (name : pystr) : option nat :=
  match name with
  | [] => None
  | c :: rest =>
      match rfind_dot rest with
      | Some i => Some (S i)
      | None => if c =? 46 then Some O else None
      end
  end.

(** [Path(path).stem]: the final component minus its last suffix. *)
Definition path_stem (path : pystr) : pystr :=
  let name := path_name path in
  match rfind_dot name with
  | Some i =>
      if (0 <? i)%nat && (i <? length name - 1)%nat
      then take i name
      else name
  | None => name
  end.

(** The encoding name as the source spells it: the hyphen is [U+2011]. *)
Definition utf8_literal : pystr := py "utf" ++ [0x2011] ++ py "8".

(** [get_csv_download(df, original_name)]: the CSV bytes and the suggested
    filename. *)
Definition get_csv_download (df : ref) (original_name : pystr)
  : M (list byte * pystr) :=
  f <- get_frame df ;;
  csv_bytes <- str_encode (to_csv f) utf8_literal ;;
  let new_name := path_stem original_name ++ py "_classified.csv" in
  ret (csv_bytes, new_name).

(** ** Vocabulary of the statements *)

(** A phrase occurs in a text without regard to case when some contiguous
    part of the text has the same lowercase form as the phrase. *)
Definition occurs_ignoring_case (phrase text : pystr) : Prop :=
  exists pre mid post, text = pre ++ mid ++ post /\ lower mid = lower phrase.

(** A phrase made of ASCII characters that does not end in the letter i. *)
Definition plain_phrase (kw : pystr) : Prop :=
  (forall x, In x kw -> x < 128) /\ (forall kw0, kw <> kw0 ++ [0x69]).

(** The same with no capital letter, as a test. *)
Definition plain_phraseb (kw : pystr) : bool :=
  forallb (fun c => (c <? 128) && negb ((65 <=? c) && (c <=? 90))) kw &&
  match last kw with
  | Some c => negb (c =? 0x69)
  | None => true
  end.

(** The test made on one dictionary entry by [classify_statement]. *)
Definition phrase_hit (text_lower : pystr) (entry : pystr * list pystr) : bool :=
  existsb (fun kw => contains kw text_lower) (snd entry).

(** A frame as pandas keeps it when it comes from a CSV file: the column
    labels are distinct, and every column has one value per row. *)
Definition wf_frame (f : DataFrame) : Prop :=
  NoDup (column_names f) /\
  Forall (fun kv => length (snd kv) = nrows f) (columns f).

(** What [classify_statement] returns on a value. *)
Definition labels_of (text : pyval) : list pystr :=
  matched_labels dictionaries (lower (py_str text)).

(** The two kinds of derived columns, computed from the statements. *)
Definition label_values (statements : list pyval) : list pyval :=
  map (fun text => VList (labels_of text)) statements.

Definition flag_values (label : pystr) (statements : list pyval) : list pyval :=
  map (fun text => VBool (str_mem label (labels_of text))) statements.

(** The frame [enrich_dataframe] builds from a frame and its statements. *)
Definition add_flags (statements : list pyval) (labels : list pystr) (g : DataFrame)
  : DataFrame :=
  fold_left (fun g label => set_column g label (flag_values label statements)) labels g.

Definition enriched_frame (f : DataFrame) (statements : list pyval) : DataFrame :=
  add_flags statements (dict_keys dictionaries)
    (set_column f labels_column (label_values statements)).

(** The labels of the derived columns. *)
Definition derived_columns : list pystr := labels_column :: dict_keys dictionaries.

(** A frame without its derived columns. *)
Definition enrich_labels_removed (f : DataFrame) : DataFrame :=
  mkFrame (nrows f)
    (List.filter (fun kv => negb (str_mem (fst kv) derived_columns)) (columns f)).

(** Well-formed text: every code point is a Unicode scalar value, that is,
    a code point below [0x110000] that is not a surrogate. *)
Definition is_scalar (c : N) : bool :=
  (c <? 0x110000) && negb ((0xD800 <=? c) && (c <=? 0xDFFF)).

Definition wf_text (s : pystr) : bool := forallb is_scalar s.

Definition wf_value (v : pyval) : bool :=
  match v with
  | VStr s => wf_text s
  | VFloat r => wf_text r
  | VList items => forallb wf_text items
  | VInt _ | VBool _ => true
  end.

(** A frame whose cells, those of the header included, are well-formed
    text. *)
Definition wf_frame_text (f : DataFrame) : bool :=
  forallb (fun kv => wf_text (fst kv) && forallb wf_value (snd kv)) (columns f).

(** The UTF-8 form of a well-formed text. *)
Definition utf8_bytes (s : pystr) : list byte :=
  flat_map (fun c => default [] (utf8_cp c)) s.

(** *** Sample data *)

(** A character database that leaves every code point it is asked about
    unchanged and printable. *)
Definition sample_unicode_lower (c : N) : list N := [c].
Definition sample_unicode_isprintable (c : N) : bool := true.

(** A table of two rows as a CSV reader builds it. *)
Definition sample_frame : DataFrame :=
  mkFrame 2
    [ (py "id", [VInt 1; VInt 2]);
      (py "Statement",
       [ VStr (py "Limited time offer, act now!");
         VStr (py "Join our exclusive VIP members only event") ]) ].

(** The same table after enrichment. *)
Definition sample_enriched_frame : DataFrame :=
  mkFrame 2
    [ (py "id", [VInt 1; VInt 2]);
      (py "Statement",
       [ VStr (py "Limited time offer, act now!");
         VStr (py "Join our exclusive VIP members only event") ]);
      (py "labels",
       [ VList [py "urgency_marketing"]; VList [py "exclusive_marketing"] ]);
      (py "urgency_marketing", [VBool true; VBool false]);
      (py "exclusive_marketing", [VBool false; VBool true]) ].

(** Two tables without a statement column, one with no row. *)
Definition sample_empty_frame : DataFrame := mkFrame 0 [ (py "text", []) ].

Definition sample_other_frame : DataFrame :=
  mkFrame 3
    [ (py "text", [VStr (py "act now"); VStr (py "vip"); VStr (py "hurry")]) ].

(** A table that already has a column called [labels]. *)
Definition sample_labelled_frame : DataFrame :=
  mkFrame 1
    [ (py "Statement", [VStr (py "act now")]);
      (py "labels", [VStr (py "reviewed")]) ].

Definition sample_state (f : DataFrame) : state := mkState [f] [].

(** ** Streamlit UI *)

(** What a run of the page script shows, in order of appearance. *)
Inductive widget :=
| PageConfig (page_title page_icon layout : pystr)
| Title (body : pystr)
| Write (body : pystr)
| FileUploader (label : pystr) (types : list pystr)
| Info (body : pystr)
| Error (body : pystr)
| Success (body : pystr)
| Subheader (body : pystr)
| DataframeView (data : DataFrame) (use_container_width : bool)
| TableView (column : pystr) (rows : list (pystr * pyval))
| DownloadButton (label : pystr) (data : list byte) (file_name mime : pystr).

(** The file the uploader returns: its name and what [pd.read_csv] makes of
    its content, which is either a table or an exception, of which the script
    uses the text only.  The parser is pandas' own and is not modelled. *)
Record UploadedFile := mkUpload {
  name : pystr;
  read_csv : pystr + DataFrame
}.

(** How a run of the script ends: at its last line, at [st.stop()], or with
    an exception nothing caught. *)
Inductive outcome (A : Type) :=
| Done (a : A)
| Stopped
| Crashed (e : exn).
#[global] Arguments Done {A} a.
#[global] Arguments Stopped {A}.
#[global] Arguments Crashed {A} e.

(** A piece of script: it runs in a program state and appends to the page. *)
Definition Script (A : Type) : Type :=
  state * list widget -> (state * list widget) * outcome A.

Definition show (w : widget) : Script unit :=
  fun s => ((fst s, snd s ++ [w]), Done tt).

(** [st.stop()]. *)
Definition stop {A} : Script A := fun s => (s, Stopped).

(** A call of one of the helper functions. *)
Definition perform {A} (c : M A) : Script A :=
  fun s =>
    match c (fst s) with
    | (st', Ok a) => ((st', snd s), Done a)
    | (st', Raise e) => ((st', snd s), Crashed e)
    end.

Definition and_then {A B} (c : Script A) (k : A -> Script B) : Script B :=
  fun s =>
    match c s with
    | (s', Done a) => k a s'
    | (s', Stopped) => (s', Stopped)
    | (s', Crashed e) => (s', Crashed e)
    end.

(** [try: body / except ValueError as ve: handler(str(ve))].  Of the
    exceptions of the model Python also files [UnicodeEncodeError] under
    [ValueError]; the one body this is used on never raises it. *)
Definition except_value_error {A} (body : Script A) (handler : pystr -> Script A)
  : Script A :=
  fun s =>
    match body s with
    | (s', Crashed (ValueError msg)) => handler msg s'
    | r => r
    end.

Notation "x <~ c ;; k" := (and_then c (fun x => k))
  (at level 100, c at next level, right associativity).
Notation "c ;;~ k" := (and_then c (fun _ => k))
  (at level 100, right associativity).

(** [df.head(n)]: the first [n] rows. *)
Definition head (n : nat) (f : DataFrame) : DataFrame :=
  mkFrame (Nat.min n (nrows f)) (map (fun kv => (fst kv, take n (snd kv))) (columns f)).

Definition df_head (df : ref) (n : nat) : M DataFrame :=
  f <- get_frame df ;;
  ret (head n f).

(** [df[keys]]: the listed columns, in the order of the list. *)
Fixpoint df_select (df : ref) (keys : list pystr) : M (list (pystr * list pyval)) :=
  match keys with
  | [] => ret []
  | key :: rest =>
      values <- df_getitem df key ;;
      others <- df_select df rest ;;
      ret ((key, values) :: others)
  end.

(** The sum of a column of booleans and integers, a boolean counting for 0
    or 1.  Sums over other values are not modelled: the columns the script
    adds up hold booleans. *)
Fixpoint series_sum (values : list pyval) : M Z :=
  match values with
  | [] => ret 0%Z
  | VBool b :: rest => total <- series_sum rest ;; ret ((if b then 1 else 0) + total)%Z
  | VInt z :: rest => total <- series_sum rest ;; ret (z + total)%Z
  | _ :: _ => raise TypeError
  end.

(** [frame.sum()], column by column. *)
Fixpoint frame_sum (cols : list (pystr * list pyval)) : M (list (pystr * pyval)) :=
  match cols with
  | [] => ret []
  | (key, values) :: rest =>
      total <- series_sum values ;;
      others <- frame_sum rest ;;
      ret ((key, VInt total) :: others)
  end.

(** [df[keys].sum()]. *)
Definition column_sums (df : ref) (keys : list pystr) : M (list (pystr * pyval)) :=
  selected <- df_select df keys ;;
  frame_sum selected.

(** The page script. *)
Definition streamlit_app (uploaded_file : option UploadedFile) : Script unit :=
  show (PageConfig (py "Marketing Statement Classifier") [0x1F50D] (py "wide")) ;;~
  show (Title ([0x1F50D] ++ py " Marketing Statement Classifier")) ;;~
  show (Write (py "Upload a CSV file containing a **Statement** column, and this app will flag statements that use urgency or exclusivity marketing language.")) ;;~
  show (FileUploader (py "Upload CSV") [py "csv"]) ;;~
  match uploaded_file with
  | Some file =>
      df_input <~ match read_csv file with
                  | inr table => perform (new_frame table)
                  | inl e =>
                      show (Error ([0x274C] ++ py " Could not read the file: " ++ e)) ;;~
                      stop
                  end ;;
      show (Subheader (py "Preview of uploaded data")) ;;~
      preview <~ perform (df_head df_input 5) ;;
      show (DataframeView preview true) ;;~
      df_output <~ except_value_error (perform (enrich_dataframe df_input))
                     (fun ve => show (Error ([0x274C] ++ py " " ++ ve)) ;;~ stop) ;;
      show (Subheader (py "Classified data (first 10 rows)")) ;;~
      first_rows <~ perform (df_head df_output 10) ;;
      show (DataframeView first_rows true) ;;~
      show (Subheader (py "Category counts")) ;;~
      counts <~ perform (column_sums df_output
                           [py "urgency_marketing"; py "exclusive_marketing"]) ;;
      show (TableView (py "count") counts) ;;~
      download <~ perform (get_csv_download df_output (name file)) ;;
      show (DownloadButton ([0x1F4E5] ++ py " Download classified CSV")
              (fst download) (snd download) (py "text/csv")) ;;~
      show (Success ([0x2705] ++ py " Processing complete! You can now download the enriched file."))
  | None =>
      show (Info ([0x1F446] ++ py " Start by uploading a CSV file. A sample CSV should have at least a 'Statement' column."))
  end.

(** A run of the page script on an empty page. *)
Definition run_app (uploaded_file : option UploadedFile) (st : state)
  : (state * list widget) * outcome unit :=
  streamlit_app uploaded_file (st, []).

(** *** Vocabulary for the page script *)

(** What every run shows first. *)
Definition page_header : list widget :=
  [ PageConfig (py "Marketing Statement Classifier") [0x1F50D] (py "wide");
    Title ([0x1F50D] ++ py " Marketing Statement Classifier");
    Write (py "Upload a CSV file containing a **Statement** column, and this app will flag statements that use urgency or exclusivity marketing language.");
    FileUploader (py "Upload CSV") [py "csv"] ].

(** The number of statements that [classify_statement] gives a label. *)
Definition category_count (label : pystr) (statements : list pyval) : Z :=
  Z.of_nat
    (length (List.filter (fun text => str_mem label (labels_of text)) statements)).

Definition is_download_button (w : widget) : bool :=
  match w with
  | DownloadButton _ _ _ _ => true
  | _ => false
  end.

Definition is_table_view (w : widget) : bool :=
  match w with
  | TableView _ _ => true
  | _ => false
  end.

(** *** More sample data *)

(** A table whose statement ends in a lone surrogate. *)
Definition sample_surrogate_frame : DataFrame :=
  mkFrame 1 [ (py "Statement", [VStr (py "act now" ++ [0xD800])]) ].

(** A table with the statement column only. *)
Definition sample_bare_frame : DataFrame :=
  mkFrame 1 [ (py "Statement", [VStr (py "act now")]) ].

Definition sample_upload (f : DataFrame) : UploadedFile :=
  mkUpload (py "uploads/data.csv") (inr f).

(** * Properties *)

(** ** Text *)

Lemma str_eqb_eq (a b : pystr) : str_eqb a b = true <-> a = b.
Proof.
  revert b; induction a as [|x a IH]; intros [|y b]; simpl; try (split; congruence).
  rewrite andb_true_iff, N.eqb_eq, IH. split.
  - intros [-> ->]; reflexivity.
  - intros H; injection H; auto.
Qed.

Lemma str_eqb_refl (a : pystr) : str_eqb a a = true.
Proof. apply str_eqb_eq; reflexivity. Qed.

Lemma str_eqb_neq (a b : pystr) : str_eqb a b = false <-> a <> b.
Proof.
  rewrite <- str_eqb_eq. destruct (str_eqb a b); split; congruence.
Qed.

Lemma str_mem_In (x : pystr) (l : list pystr) : str_mem x l = true <-> In x l.
Proof.
  unfold str_mem. rewrite existsb_exists. split.
  - intros (y & Hy & Heq). apply str_eqb_eq in Heq. subst; assumption.
  - intros H. exists x. split; [assumption | apply str_eqb_refl].
Qed.

Lemma str_mem_not_In (x : pystr) (l : list pystr) : str_mem x l = false <-> ~ In x l.
Proof.
  rewrite <- str_mem_In. destruct (str_mem x l); split; congruence.
Qed.

Lemma startswith_spec (kw s : pystr) :
  startswith kw s = true <-> exists post, s = kw ++ post.
Proof.
  revert s; induction kw as [|k kw IH]; intros s; simpl.
  - split; [intros _; exists s; reflexivity | reflexivity].
  - destruct s as [|c s].
    + split; [discriminate | intros (post & H); discriminate].
    + rewrite andb_true_iff, N.eqb_eq, IH. split.
      * intros (-> & post & ->). exists post; reflexivity.
      * intros (post & H). injection H as -> ->. split; [reflexivity | exists post; reflexivity].
Qed.

(** [kw in s] holds exactly when [s] splits around a copy of [kw]. *)
Lemma contains_spec (kw s : pystr) :
  contains kw s = true <-> exists pre post, s = pre ++ kw ++ post.
Proof.
  induction s as [|c s IH].
  - cbn [contains]. rewrite orb_false_r, startswith_spec. split.
    + intros (post & H). exists [], post. exact H.
    + intros (pre & post & H). destruct pre; [exists post; exact H | discriminate].
  - cbn [contains]. rewrite orb_true_iff, startswith_spec, IH. split.
    + intros [(post & H) | (pre & post & H)].
      * exists [], post. exact H.
      * exists (c :: pre), post. rewrite H. reflexivity.
    + intros (pre & post & H). destruct pre as [|p pre].
      * left. exists post. exact H.
      * right. injection H as -> ->. exists pre, post. reflexivity.
Qed.

Lemma lower_app (a b : pystr) : lower (a ++ b) = lower a ++ lower b.
Proof. unfold lower. apply flat_map_app. Qed.

(** The three shapes a lowercase mapping can take. *)
Lemma lower_cp_shape (c : N) :
  (exists x, lower_cp c = [x]) \/
  (forall x, In x (lower_cp c) -> 128 <= x) \/
  lower_cp c = [0x69; 0x307].
Proof.
  unfold lower_cp.
  destruct ((65 <=? c) && (c <=? 90)); [left; eexists; reflexivity |].
  destruct (c <? 128) eqn:Hascii; [left; eexists; reflexivity |].
  destruct (c =? 0x130) eqn:Hdot; [right; right; reflexivity |].
  destruct (c =? 0x212A) eqn:Hkelvin; [left; eexists; reflexivity |].
  right; left. apply N.ltb_ge in Hascii. apply N.eqb_neq in Hdot, Hkelvin.
  intros x. apply unicode_lower_nonascii; assumption.
Qed.

Lemma plain_phrase_tail (k : N) (kw : pystr) :
  plain_phrase (k :: kw) -> plain_phrase kw.
Proof.
  intros [Hascii Hlast]. split.
  - intros x Hx. apply Hascii. right; exact Hx.
  - intros kw0 ->. apply (Hlast (k :: kw0)). reflexivity.
Qed.

(** A phrase found at the head of the lowercased text is the lowercase form
    of a head of the text. *)
Lemma lower_match_head (t kw post : pystr) :
  plain_phrase kw ->
  lower t = kw ++ post ->
  exists mid rest, t = mid ++ rest /\ lower mid = kw.
Proof.
  revert kw post. induction t as [|c t IH]; intros kw post Hkw Heq.
  - destruct kw; [exists [], []; split; reflexivity | discriminate].
  - destruct kw as [|k kw]; [exists [], (c :: t); split; reflexivity |].
    change (lower (c :: t)) with (lower_cp c ++ lower t) in Heq.
    destruct (lower_cp_shape c) as [(x & Hx) | [Hhigh | Hdot]].
    + rewrite Hx in Heq. injection Heq as -> Heq.
      destruct (IH kw post (plain_phrase_tail _ _ Hkw) Heq) as (mid & rest & -> & Hmid).
      exists (c :: mid), rest. split; [reflexivity |].
      change (lower (c :: mid)) with (lower_cp c ++ lower mid).
      rewrite Hx, Hmid. reflexivity.
    + destruct (lower_cp c) as [|x l] eqn:Hc.
      * destruct (IH (k :: kw) post Hkw Heq) as (mid & rest & -> & Hmid).
        exists (c :: mid), rest. split; [reflexivity |].
        change (lower (c :: mid)) with (lower_cp c ++ lower mid).
        rewrite Hc, Hmid. reflexivity.
      * injection Heq as -> Heq. exfalso.
        assert (128 <= k) by (apply Hhigh; left; reflexivity).
        assert (k < 128) by (apply (proj1 Hkw); left; reflexivity).
        lia.
    + rewrite Hdot in Heq. injection Heq as <- Heq. exfalso.
      destruct kw as [|k2 kw].
      * apply (proj2 Hkw []). reflexivity.
      * injection Heq as <- _.
        assert (0x307 < 128) by (apply (proj1 Hkw); right; left; reflexivity).
        lia.
Qed.

(** A phrase found anywhere in the lowercased text is the lowercase form of
    a contiguous part of the text. *)
Lemma lower_match (t pre kw post : pystr) :
  plain_phrase kw ->
  lower t = pre ++ kw ++ post ->
  exists pre' mid post', t = pre' ++ mid ++ post' /\ lower mid = kw.
Proof.
  intros Hkw. revert pre. induction t as [|c t IH]; intros pre Heq.
  - exists [], [], []. split; [reflexivity |].
    destruct pre; [destruct kw; [reflexivity | discriminate] | discriminate].
  - destruct kw as [|k kw]; [exists [], [], (c :: t); split; reflexivity |].
    destruct pre as [|p pre].
    + destruct (lower_match_head (c :: t) (k :: kw) post Hkw Heq) as (mid & rest & Ht & Hmid).
      exists [], mid, rest. split; assumption.
    + assert (Hstep : exists pre2, lower t = pre2 ++ (k :: kw) ++ post).
      { change (lower (c :: t)) with (lower_cp c ++ lower t) in Heq.
        apply app_eq_app in Heq.
        destruct Heq as (m & [[Hc Hm] | [Hpre Ht]]).
        2: { exists m. exact Ht. }
        destruct m as [|y m].
        - exists []. simpl in Hm. rewrite <- Hm. reflexivity.
        - exfalso. injection Hm as <- _.
          assert (Hk : k < 128) by (apply (proj1 Hkw); left; reflexivity).
          destruct (lower_cp_shape c) as [(x & Hx) | [Hhigh | Hdot]].
          + rewrite Hx in Hc. destruct pre; discriminate.
          + assert (128 <= k); [| lia].
            apply Hhigh. rewrite Hc. apply in_or_app. right; left; reflexivity.
          + rewrite Hdot in Hc. injection Hc as _ Hc.
            destruct pre as [|p2 pre]; [injection Hc as <- _; lia |].
            destruct pre; discriminate. }
      destruct Hstep as (pre2 & Ht).
      destruct (IH pre2 Ht) as (pre' & mid & post' & -> & Hmid).
      exists (c :: pre'), mid, post'. split; [reflexivity | exact Hmid].
Qed.

(** ** The keyword dictionary *)

Lemma dictionaries_keys_NoDup : NoDup (dict_keys dictionaries).
Proof. refine (bool_decide_unpack _ _). vm_compute. exact I. Qed.

Lemma dictionaries_phrases_checked :
  forallb (fun entry => forallb plain_phraseb (snd entry)) dictionaries = true.
Proof. vm_compute. reflexivity. Qed.

Lemma plain_phraseb_plain (kw : pystr) :
  plain_phraseb kw = true -> plain_phrase kw.
Proof.
  unfold plain_phraseb. rewrite andb_true_iff, forallb_forall. intros [Hall Hlast].
  split.
  - intros x Hx. specialize (Hall x Hx). apply andb_true_iff in Hall.
    apply N.ltb_lt. tauto.
  - intros kw0 ->. rewrite last_snoc in Hlast. discriminate.
Qed.

Lemma plain_phraseb_lower (kw : pystr) :
  plain_phraseb kw = true -> lower kw = kw.
Proof.
  unfold plain_phraseb. rewrite andb_true_iff, forallb_forall. intros [Hall _].
  induction kw as [|c kw IH]; [reflexivity |].
  change (lower (c :: kw)) with (lower_cp c ++ lower kw).
  rewrite IH by (intros x Hx; apply Hall; right; exact Hx).
  specialize (Hall c (or_introl eq_refl)). apply andb_true_iff in Hall.
  destruct Hall as [Hascii Hupper]. unfold lower_cp.
  apply negb_true_iff in Hupper. rewrite Hupper, Hascii. reflexivity.
Qed.

Lemma dict_get_In (d : list (pystr * list pystr)) (k : pystr) (v : list pystr) :
  NoDup (dict_keys d) -> In (k, v) d -> dict_get d k = v.
Proof.
  induction d as [|[k0 v0] d IH]; simpl; intros Hnd Hin; [contradiction |].
  apply NoDup_cons in Hnd. destruct Hnd as [Hfresh Hnd].
  destruct Hin as [Heq | Hin].
  - injection Heq as -> ->. rewrite str_eqb_refl. reflexivity.
  - destruct (str_eqb k0 k) eqn:E.
    + apply str_eqb_eq in E. subst k0. exfalso. apply Hfresh.
      apply list_elem_of_In. apply (in_map fst) in Hin. exact Hin.
    + apply IH; assumption.
Qed.

Lemma dict_get_key (d : list (pystr * list pystr)) (k : pystr) :
  In k (dict_keys d) -> In (k, dict_get d k) d.
Proof.
  induction d as [|[k0 v0] d IH]; simpl; [contradiction |].
  destruct (str_eqb k0 k) eqn:E.
  - apply str_eqb_eq in E. subst k0. intros _. left; reflexivity.
  - intros [Heq | Hin]; [apply str_eqb_neq in E; contradiction |].
    right. apply IH. exact Hin.
Qed.

Lemma dictionaries_phrase_plain (label kw : pystr) :
  In label (dict_keys dictionaries) ->
  In kw (dict_get dictionaries label) ->
  plain_phraseb kw = true.
Proof.
  intros Hkey Hkw. apply dict_get_key in Hkey.
  pose proof dictionaries_phrases_checked as Hall.
  rewrite forallb_forall in Hall. specialize (Hall _ Hkey). simpl in Hall.
  rewrite forallb_forall in Hall. apply Hall. exact Hkw.
Qed.

(** ** [classify_statement] *)

(** The loop appends to [matched] the labels of the entries that test
    positive, in order. *)
Lemma matched_labels_loop (d : list (pystr * list pystr)) (t : pystr) (acc : list pystr) :
  fold_left
    (fun matched entry =>
       let '(label, keywords) := entry in
       if existsb (fun kw => contains kw t) keywords
       then matched ++ [label]
       else matched)
    d acc
  = acc ++ map fst (List.filter (phrase_hit t) d).
Proof.
  revert acc. induction d as [|[label keywords] d IH]; intros acc; simpl.
  - rewrite app_nil_r. reflexivity.
  - rewrite IH. unfold phrase_hit at 2. simpl.
    destruct (existsb _ keywords); simpl; [rewrite <- app_assoc |]; reflexivity.
Qed.

Lemma matched_labels_filter (d : list (pystr * list pystr)) (t : pystr) :
  matched_labels d t = map fst (List.filter (phrase_hit t) d).
Proof. unfold matched_labels. apply matched_labels_loop. Qed.

Lemma matched_labels_sublist (d : list (pystr * list pystr)) (t : pystr) :
  sublist (matched_labels d t) (dict_keys d).
Proof.
  rewrite matched_labels_filter. unfold dict_keys.
  induction d as [|e d IH]; simpl; [constructor |].
  destruct (phrase_hit t e); simpl; constructor; exact IH.
Qed.

Lemma classify_statement_run (text : pyval) (st : state) :
  classify_statement text st
  = (mkState (heap st) (classified st ++ [text]),
     Ok (matched_labels dictionaries (lower (py_str text)))).
Proof. reflexivity. Qed.

Lemma matched_labels_In (d : list (pystr * list pystr)) (t label : pystr) :
  NoDup (dict_keys d) ->
  In label (dict_keys d) ->
  In label (matched_labels d t) <->
  exists kw, In kw (dict_get d label) /\ contains kw t = true.
Proof.
  intros Hnd Hkey. rewrite matched_labels_filter, in_map_iff. split.
  - intros ([k v] & Hk & Hin). simpl in Hk. subst k.
    apply filter_In in Hin. destruct Hin as [Hin Hhit].
    rewrite (dict_get_In d label v Hnd Hin).
    unfold phrase_hit in Hhit. simpl in Hhit. apply existsb_exists in Hhit.
    exact Hhit.
  - intros (kw & Hkw & Hc). exists (label, dict_get d label). split; [reflexivity |].
    apply filter_In. split; [apply dict_get_key; exact Hkey |].
    unfold phrase_hit. simpl. apply existsb_exists. exists kw. split; assumption.
Qed.

(** For a plain lowercase phrase, the test of the source is occurrence
    without regard to case. *)
Lemma contains_lower_iff (kw text : pystr) :
  plain_phraseb kw = true ->
  contains kw (lower text) = true <-> occurs_ignoring_case kw text.
Proof.
  intros Hkw. unfold occurs_ignoring_case.
  rewrite (plain_phraseb_lower kw Hkw), contains_spec. split.
  - intros (pre & post & Heq).
    apply (lower_match text pre kw post (plain_phraseb_plain kw Hkw) Heq).
  - intros (pre & mid & post & -> & Hmid).
    exists (lower pre), (lower post). rewrite !lower_app, Hmid. reflexivity.
Qed.


(** C8: the labels [classify_statement] returns follow the iteration order
    of the dictionary, and none of them is repeated. *)
Theorem classify_statement_ordered (text : pyval) (st : state) :
  exists labels st',
    classify_statement text st = (st', Ok labels) /\
    sublist labels (dict_keys dictionaries) /\
    NoDup labels.
Proof.
  eexists _, _. split; [apply classify_statement_run |].
  pose proof (matched_labels_sublist dictionaries (lower (py_str text))) as Hsub.
  split; [exact Hsub |].
  exact (sublist_NoDup _ _ dictionaries_keys_NoDup Hsub).
Qed.


(** ** Frames *)

Lemma str_eqb_sym (a b : pystr) : str_eqb a b = str_eqb b a.
Proof.
  destruct (str_eqb b a) eqn:E.
  - apply str_eqb_eq in E. subst. apply str_eqb_refl.
  - apply str_eqb_neq. apply str_eqb_neq in E. congruence.
Qed.

Lemma align_exact (n : nat) (values : list pyval) :
  length values = n -> align n values = values.
Proof.
  intros <-. unfold align. rewrite take_ge by lia.
  rewrite Nat.sub_diag. apply app_nil_r.
Qed.

Lemma length_align (n : nat) (values : list pyval) : length (align n values) = n.
Proof.
  unfold align. rewrite length_app, length_take, length_replicate. lia.
Qed.

Lemma nrows_set_column (f : DataFrame) (key : pystr) (values : list pyval) :
  nrows (set_column f key values) = nrows f.
Proof. unfold set_column. destruct (str_mem key (column_names f)); reflexivity. Qed.

Lemma get_column_mem (cols : list (pystr * list pyval)) (key : pystr) :
  str_mem key (map fst cols) = true <-> exists vs, get_column cols key = Some vs.
Proof.
  induction cols as [|[k vs] cols IH]; simpl.
  - split; [discriminate | intros (vs & H); discriminate].
  - destruct (str_eqb k key) eqn:E.
    + apply str_eqb_eq in E. subst k. rewrite str_eqb_refl. simpl.
      split; [intros _; exists vs; reflexivity | reflexivity].
    + rewrite str_eqb_sym, E. exact IH.
Qed.

Lemma get_column_In (cols : list (pystr * list pyval)) (key : pystr) (vs : list pyval) :
  get_column cols key = Some vs -> In (key, vs) cols.
Proof.
  induction cols as [|[k v] cols IH]; simpl; [discriminate |].
  destruct (str_eqb k key) eqn:E.
  - apply str_eqb_eq in E. intros [= ->]. left. subst; reflexivity.
  - intros H. right. apply IH. exact H.
Qed.

Lemma get_column_snoc (cols : list (pystr * list pyval)) (key key' : pystr)
    (vs : list pyval) :
  get_column (cols ++ [(key, vs)]) key' =
  match get_column cols key' with
  | Some v => Some v
  | None => if str_eqb key key' then Some vs else None
  end.
Proof.
  induction cols as [|[k v] cols IH]; simpl; [reflexivity |].
  destruct (str_eqb k key'); [reflexivity | exact IH].
Qed.

Lemma get_column_replace (cols : list (pystr * list pyval)) (key key' : pystr)
    (vs : list pyval) :
  get_column
    (map (fun kv => if str_eqb (fst kv) key then (fst kv, vs) else kv) cols) key' =
  match get_column cols key' with
  | Some v => if str_eqb key key' then Some vs else Some v
  | None => None
  end.
Proof.
  induction cols as [|[k v] cols IH]; simpl; [reflexivity |].
  destruct (str_eqb k key) eqn:Ek; simpl.
  - apply str_eqb_eq in Ek. subst k.
    destruct (str_eqb key key'); [reflexivity | exact IH].
  - destruct (str_eqb k key') eqn:Ek'.
    + apply str_eqb_eq in Ek'. subst k. rewrite str_eqb_sym, Ek. reflexivity.
    + exact IH.
Qed.

(** Reading a column after an assignment. *)
Lemma get_set_column (f : DataFrame) (key key' : pystr) (values : list pyval) :
  get_column (columns (set_column f key values)) key' =
  if str_eqb key key' then Some (align (nrows f) values)
  else get_column (columns f) key'.
Proof.
  unfold set_column. destruct (str_mem key (column_names f)) eqn:Hmem; simpl.
  - rewrite get_column_replace.
    destruct (str_eqb key key') eqn:E.
    + apply str_eqb_eq in E. subst key'.
      apply get_column_mem in Hmem. destruct Hmem as (vs & ->). reflexivity.
    + destruct (get_column (columns f) key'); reflexivity.
  - rewrite get_column_snoc.
    destruct (str_eqb key key') eqn:E.
    + apply str_eqb_eq in E. subst key'.
      destruct (get_column (columns f) key) eqn:G; [| reflexivity].
      assert (str_mem key (column_names f) = true) by (apply get_column_mem; eauto).
      congruence.
    + destruct (get_column (columns f) key'); reflexivity.
Qed.

(** The labels of the columns after an assignment. *)
Lemma column_names_set_column (f : DataFrame) (key : pystr) (values : list pyval) :
  column_names (set_column f key values) =
  if str_mem key (column_names f) then column_names f else column_names f ++ [key].
Proof.
  unfold set_column, column_names.
  destruct (str_mem key (map fst (columns f))); simpl.
  - induction (columns f) as [|[k v] cols IH]; simpl; [reflexivity |].
    rewrite IH. destruct (str_eqb k key); reflexivity.
  - rewrite map_app. reflexivity.
Qed.

Lemma wf_set_column (f : DataFrame) (key : pystr) (values : list pyval) :
  wf_frame f -> wf_frame (set_column f key values).
Proof.
  intros [Hnd Hlen]. split.
  - rewrite column_names_set_column.
    destruct (str_mem key (column_names f)) eqn:Hmem; [exact Hnd |].
    apply NoDup_app. split; [exact Hnd |]. split.
    + intros x Hx Hx'. apply list_elem_of_singleton in Hx'. subst x.
      apply str_mem_not_In in Hmem. apply Hmem. apply list_elem_of_In. exact Hx.
    + apply NoDup_singleton.
  - rewrite nrows_set_column. unfold set_column.
    destruct (str_mem key (column_names f)); simpl.
    + apply List.Forall_map. eapply Forall_impl; [exact Hlen |].
      intros [k v] Hkv. simpl in *.
      destruct (str_eqb k key); simpl; [apply length_align | exact Hkv].
    + apply Forall_app. split; [exact Hlen |].
      constructor; [apply length_align | constructor].
Qed.

Lemma wf_column_length (f : DataFrame) (key : pystr) (vs : list pyval) :
  wf_frame f -> get_column (columns f) key = Some vs -> length vs = nrows f.
Proof.
  intros [_ Hlen] Hget. apply get_column_In in Hget.
  rewrite List.Forall_forall in Hlen. apply (Hlen _ Hget).
Qed.

(** ** Running the frame operations *)

Lemma state_eta (st : state) : mkState (heap st) (classified st) = st.
Proof. destruct st; reflexivity. Qed.

Lemma bind_ok {A B} (c : M A) (k : A -> M B) (st st' : state) (a : A) :
  c st = (st', Ok a) -> bind c k st = k a st'.
Proof. unfold bind. intros ->. reflexivity. Qed.

Lemma bind_raise {A B} (c : M A) (k : A -> M B) (st st' : state) (e : exn) :
  c st = (st', Raise e) -> bind c k st = (st', Raise e).
Proof. unfold bind. intros ->. reflexivity. Qed.

Lemma get_frame_run (r : ref) (f : DataFrame) (st : state) :
  heap st !! r = Some f -> get_frame r st = (st, Ok f).
Proof. unfold get_frame. intros ->. reflexivity. Qed.

Lemma df_columns_run (r : ref) (f : DataFrame) (st : state) :
  heap st !! r = Some f -> df_columns r st = (st, Ok (column_names f)).
Proof.
  intros H. unfold df_columns. rewrite (bind_ok _ _ _ _ _ (get_frame_run r f st H)).
  reflexivity.
Qed.

Lemma df_copy_run (r : ref) (f : DataFrame) (st : state) :
  heap st !! r = Some f ->
  df_copy r st = (mkState (heap st ++ [f]) (classified st), Ok (length (heap st))).
Proof.
  intros H. unfold df_copy. rewrite (bind_ok _ _ _ _ _ (get_frame_run r f st H)).
  reflexivity.
Qed.

Lemma df_getitem_run (r : ref) (f : DataFrame) (key : pystr) (vs : list pyval)
    (st : state) :
  heap st !! r = Some f ->
  get_column (columns f) key = Some vs ->
  df_getitem r key st = (st, Ok vs).
Proof.
  intros H Hget. unfold df_getitem.
  rewrite (bind_ok _ _ _ _ _ (get_frame_run r f st H)), Hget. reflexivity.
Qed.

Lemma df_setitem_run (r : ref) (f : DataFrame) (key : pystr) (vs : list pyval)
    (st : state) :
  heap st !! r = Some f ->
  df_setitem r key vs st
  = (mkState (<[r := set_column f key vs]> (heap st)) (classified st), Ok tt).
Proof.
  intros H. unfold df_setitem.
  rewrite (bind_ok _ _ _ _ _ (get_frame_run r f st H)). reflexivity.
Qed.

(** Classifying a column: every statement is classified once, in row order. *)
Lemma series_apply_classify (statements : list pyval) (st : state) :
  series_apply (fun text => l <- classify_statement text ;; ret (VList l)) statements st
  = (mkState (heap st) (classified st ++ statements), Ok (label_values statements)).
Proof.
  revert st. induction statements as [|v vs IH]; intros st; simpl.
  - unfold ret. rewrite app_nil_r, state_eta. reflexivity.
  - unfold bind at 1 2. rewrite classify_statement_run. simpl.
    unfold bind at 1. rewrite IH. simpl. rewrite <- app_assoc. reflexivity.
Qed.

(** The membership tests of one label over the column of label lists. *)
Lemma series_apply_flags (label : pystr) (statements : list pyval) (st : state) :
  series_apply (fun cats => b <- py_in label cats ;; ret (VBool b))
    (label_values statements) st
  = (st, Ok (flag_values label statements)).
Proof.
  induction statements as [|v vs IH]; simpl; [reflexivity |].
  unfold bind at 1. simpl. unfold bind at 1. rewrite IH. reflexivity.
Qed.

Lemma nrows_add_flags (statements : list pyval) (labels : list pystr) (g : DataFrame) :
  nrows (add_flags statements labels g) = nrows g.
Proof.
  revert g. induction labels as [|l ls IH]; intros g; simpl; [reflexivity |].
  unfold add_flags in *. simpl. rewrite IH. apply nrows_set_column.
Qed.

(** The loop over the dictionary labels. *)
Lemma flag_loop_run (statements : list pyval) (r : ref) (labels : list pystr) :
  ~ In labels_column labels ->
  forall (g : DataFrame) (st : state),
    heap st !! r = Some g ->
    get_column (columns g) labels_column = Some (label_values statements) ->
    for_each labels
      (fun label =>
         cats_series <- df_getitem r labels_column ;;
         flags <- series_apply
                    (fun cats => b <- py_in label cats ;; ret (VBool b))
                    cats_series ;;
         df_setitem r label flags) st
    = (mkState (<[r := add_flags statements labels g]> (heap st)) (classified st),
       Ok tt).
Proof.
  induction labels as [|l ls IH]; intros Hfresh g st Hg Hlabels.
  - simpl. unfold ret, add_flags. simpl.
    rewrite list_insert_id by exact Hg. rewrite state_eta. reflexivity.
  - cbn [for_each].
    assert (Hbody :
      (cats_series <- df_getitem r labels_column ;;
       flags <- series_apply
                  (fun cats => b <- py_in l cats ;; ret (VBool b)) cats_series ;;
       df_setitem r l flags) st
      = (mkState (<[r := set_column g l (flag_values l statements)]> (heap st))
           (classified st), Ok tt)).
    { rewrite (bind_ok _ _ _ _ _ (df_getitem_run r g _ _ st Hg Hlabels)).
      rewrite (bind_ok _ _ _ _ _ (series_apply_flags l statements st)).
      apply df_setitem_run. exact Hg. }
    rewrite (bind_ok _ _ _ _ _ Hbody).
    rewrite (IH (fun H => Hfresh (or_intror H))
               (set_column g l (flag_values l statements))).
    + simpl. rewrite list_insert_insert_eq. reflexivity.
    + simpl. apply list_lookup_insert_eq. apply (lookup_lt_Some _ _ _ Hg).
    + rewrite get_set_column.
      destruct (str_eqb l labels_column) eqn:E; [| exact Hlabels].
      apply str_eqb_eq in E. exfalso. apply Hfresh. left. exact E.
Qed.

Lemma labels_column_not_key : ~ In labels_column (dict_keys dictionaries).
Proof. apply str_mem_not_In. vm_compute. reflexivity. Qed.

Lemma statement_column_not_derived : ~ In statement_column derived_columns.
Proof. apply str_mem_not_In. vm_compute. reflexivity. Qed.

(** ** [enrich_dataframe] *)

(** The outcome of [enrich_dataframe] on a frame with a statement column:
    the copy is the last object of the heap, the frame it holds is
    [enriched_frame], and each statement has been classified once. *)
Lemma enrich_dataframe_run (r : ref) (f : DataFrame) (statements : list pyval)
    (st : state) :
  heap st !! r = Some f ->
  get_column (columns f) statement_column = Some statements ->
  length statements = nrows f ->
  enrich_dataframe r st
  = (mkState (heap st ++ [enriched_frame f statements])
       (classified st ++ statements),
     Ok (length (heap st))).
Proof.
  intros Hr Hget Hlen. unfold enrich_dataframe.
  rewrite (bind_ok _ _ _ _ _ (df_columns_run r f st Hr)).
  assert (str_mem statement_column (column_names f) = true) as ->
    by (apply get_column_mem; eauto).
  cbn [negb].
  rewrite (bind_ok _ _ _ _ _ (df_copy_run r f st Hr)).
  set (r' := length (heap st)).
  set (st1 := mkState (heap st ++ [f]) (classified st)).
  assert (H1 : heap st1 !! r' = Some f) by apply list_lookup_middle, eq_refl.
  rewrite (bind_ok _ _ _ _ _ (df_getitem_run r' f _ _ st1 H1 Hget)).
  rewrite (bind_ok _ _ _ _ _ (series_apply_classify statements st1)).
  set (st2 := mkState (heap st1) (classified st1 ++ statements)).
  rewrite (bind_ok _ _ _ _ _
             (df_setitem_run r' f labels_column (label_values statements) st2 H1)).
  set (g := set_column f labels_column (label_values statements)).
  set (st3 := mkState (<[r' := g]> (heap st2)) (classified st2)).
  assert (H3 : heap st3 !! r' = Some g).
  { simpl. apply list_lookup_insert_eq. rewrite length_app. simpl. unfold r'. lia. }
  assert (Hg : get_column (columns g) labels_column = Some (label_values statements)).
  { unfold g. rewrite get_set_column, str_eqb_refl. f_equal.
    apply align_exact. unfold label_values. rewrite length_map. exact Hlen. }
  rewrite (bind_ok _ _ _ _ _
             (flag_loop_run statements r' (dict_keys dictionaries)
                labels_column_not_key g st3 H3 Hg)).
  unfold ret. simpl. rewrite list_insert_insert_eq.
  unfold r'. rewrite insert_app_r_alt by lia. rewrite Nat.sub_diag. reflexivity.
Qed.

(** *** The enriched frame *)

Lemma get_add_flags (statements : list pyval) (labels : list pystr) (g : DataFrame)
    (name : pystr) :
  get_column (columns (add_flags statements labels g)) name =
  if str_mem name labels
  then Some (align (nrows g) (flag_values name statements))
  else get_column (columns g) name.
Proof.
  revert g. induction labels as [|l ls IH]; intros g; [reflexivity |].
  change (add_flags statements (l :: ls) g)
    with (add_flags statements ls (set_column g l (flag_values l statements))).
  rewrite IH, nrows_set_column, get_set_column. cbn [str_mem existsb].
  fold (str_mem name ls). rewrite (str_eqb_sym name l).
  destruct (str_mem name ls); [rewrite orb_true_r; reflexivity |].
  rewrite orb_false_r. destruct (str_eqb l name) eqn:E; [| reflexivity].
  apply str_eqb_eq in E. subst l. reflexivity.
Qed.

Lemma nrows_enriched_frame (f : DataFrame) (statements : list pyval) :
  nrows (enriched_frame f statements) = nrows f.
Proof.
  unfold enriched_frame. rewrite nrows_add_flags. apply nrows_set_column.
Qed.

(** Columns with other labels are left as they are. *)
Lemma get_enriched_other (f : DataFrame) (statements : list pyval) (name : pystr) :
  ~ In name derived_columns ->
  get_column (columns (enriched_frame f statements)) name
  = get_column (columns f) name.
Proof.
  intros Hname. unfold enriched_frame. rewrite get_add_flags.
  assert (str_mem name (dict_keys dictionaries) = false) as ->.
  { apply str_mem_not_In. intros H. apply Hname. right. exact H. }
  rewrite get_set_column.
  destruct (str_eqb labels_column name) eqn:E; [| reflexivity].
  apply str_eqb_eq in E. exfalso. apply Hname. left. exact E.
Qed.

Lemma get_enriched_labels (f : DataFrame) (statements : list pyval) :
  length statements = nrows f ->
  get_column (columns (enriched_frame f statements)) labels_column
  = Some (label_values statements).
Proof.
  intros Hlen. unfold enriched_frame. rewrite get_add_flags.
  assert (str_mem labels_column (dict_keys dictionaries) = false) as ->
    by (apply str_mem_not_In, labels_column_not_key).
  rewrite get_set_column, str_eqb_refl. f_equal. apply align_exact.
  unfold label_values. rewrite length_map. exact Hlen.
Qed.

Lemma get_enriched_flags (f : DataFrame) (statements : list pyval) (label : pystr) :
  length statements = nrows f ->
  In label (dict_keys dictionaries) ->
  get_column (columns (enriched_frame f statements)) label
  = Some (flag_values label statements).
Proof.
  intros Hlen Hkey. unfold enriched_frame. rewrite get_add_flags.
  apply str_mem_In in Hkey. rewrite Hkey, nrows_set_column. f_equal.
  apply align_exact. unfold flag_values. rewrite length_map. exact Hlen.
Qed.

Lemma wf_add_flags (statements : list pyval) (labels : list pystr) (g : DataFrame) :
  wf_frame g -> wf_frame (add_flags statements labels g).
Proof.
  revert g. induction labels as [|l ls IH]; intros g Hg; [exact Hg |].
  apply (IH (set_column g l (flag_values l statements))).
  apply wf_set_column. exact Hg.
Qed.

Lemma wf_enriched_frame (f : DataFrame) (statements : list pyval) :
  wf_frame f -> wf_frame (enriched_frame f statements).
Proof.
  intros Hf. unfold enriched_frame. apply wf_add_flags, wf_set_column, Hf.
Qed.

(** One assignment seen from the column labels: a label already present
    keeps its place, a new one goes last. *)
Lemma extend_names (ns ns' : list pystr) (l : pystr) (ls extra' final : list pystr) :
  ns' = (if str_mem l ns then ns else ns ++ [l]) ->
  final = ns' ++ extra' ->
  (forall x, In x extra' <-> In x ls /\ ~ In x ns') ->
  exists extra,
    final = ns ++ extra /\
    forall x, In x extra <-> In x (l :: ls) /\ ~ In x ns.
Proof.
  intros -> -> Hextra. destruct (str_mem l ns) eqn:Hmem.
  - apply str_mem_In in Hmem. exists extra'. split; [reflexivity |].
    intros x. rewrite Hextra. simpl. split.
    + intros [Hx Hn]. split; [right; exact Hx | exact Hn].
    + intros [[<- | Hx] Hn]; [contradiction | split; assumption].
  - apply str_mem_not_In in Hmem. exists (l :: extra').
    split; [rewrite <- app_assoc; reflexivity |].
    intros x. simpl. rewrite Hextra, in_app_iff. simpl. split.
    + intros [<- | [Hx Hn]]; [split; [left; reflexivity | exact Hmem] |].
      split; [right; exact Hx | intros H; apply Hn; left; exact H].
    + intros [[<- | Hx] Hn]; [left; reflexivity |].
      destruct (str_eqb l x) eqn:E.
      * apply str_eqb_eq in E. left. exact E.
      * apply str_eqb_neq in E. right. split; [exact Hx |].
        intros [H | [H | []]]; [exact (Hn H) | exact (E H)].
Qed.

Lemma column_names_add_flags (statements : list pyval) (labels : list pystr)
    (g : DataFrame) :
  exists extra,
    column_names (add_flags statements labels g) = column_names g ++ extra /\
    forall x, In x extra <-> In x labels /\ ~ In x (column_names g).
Proof.
  revert g. induction labels as [|l ls IH]; intros g.
  - exists []. split; [symmetry; apply app_nil_r |].
    intros x. simpl. tauto.
  - destruct (IH (set_column g l (flag_values l statements))) as (extra' & Hn & Hx).
    eapply extend_names; [apply column_names_set_column | exact Hn | exact Hx].
Qed.

(** The column labels of the enriched frame: those of the input in their
    order, then the derived labels the input did not have. *)
Lemma column_names_enriched_frame (f : DataFrame) (statements : list pyval) :
  exists extra,
    column_names (enriched_frame f statements) = column_names f ++ extra /\
    forall x, In x extra <-> In x derived_columns /\ ~ In x (column_names f).
Proof.
  unfold enriched_frame.
  destruct (column_names_add_flags statements (dict_keys dictionaries)
              (set_column f labels_column (label_values statements)))
    as (extra' & Hn & Hx).
  eapply extend_names; [apply column_names_set_column | exact Hn | exact Hx].
Qed.

Lemma get_column_removed (f : DataFrame) (name : pystr) :
  ~ In name derived_columns ->
  get_column (columns (enrich_labels_removed f)) name = get_column (columns f) name.
Proof.
  intros Hname. unfold enrich_labels_removed. cbn [columns].
  induction (columns f) as [|[k v] cols IH]; [reflexivity |].
  cbn [List.filter fst]. destruct (str_mem k derived_columns) eqn:Hk; cbn [negb get_column].
  - destruct (str_eqb k name) eqn:E; [| exact IH].
    apply str_eqb_eq in E. subst k. apply str_mem_In in Hk. contradiction.
  - rewrite IH. reflexivity.
Qed.

Lemma statement_column_values (f : DataFrame) :
  wf_frame f ->
  In statement_column (column_names f) ->
  exists statements,
    get_column (columns f) statement_column = Some statements /\
    length statements = nrows f.
Proof.
  intros Hwf Hin. apply str_mem_In in Hin.
  apply get_column_mem in Hin. destruct Hin as (vs & Hvs).
  exists vs. split; [exact Hvs | apply (wf_column_length f _ _ Hwf Hvs)].
Qed.

(** C3 (amended): on a frame with a statement column, [enrich_dataframe]
    returns a frame with the same number of rows in which every column of
    the input not labelled as a derived column is unchanged, row for row, and
    the input's columns keep their order; the labels it adds are derived
    ones, and every label of the dictionary names a column of booleans.  A
    column of the input that carries the label of a derived column is
    overwritten; when the input has none, all its columns are unchanged. *)
Theorem enrich_dataframe_preserves (st : state) (r : ref) (f : DataFrame) :
  heap st !! r = Some f ->
  wf_frame f ->
  In statement_column (column_names f) ->
  exists st' r' f',
    enrich_dataframe r st = (st', Ok r') /\
    heap st' !! r' = Some f' /\
    nrows f' = nrows f /\
    (forall name, ~ In name derived_columns ->
       get_column (columns f') name = get_column (columns f) name) /\
    (exists extra,
       column_names f' = column_names f ++ extra /\
       forall x, In x extra <-> In x derived_columns /\ ~ In x (column_names f)) /\
    (forall label, In label (dict_keys dictionaries) ->
       exists flags,
         get_column (columns f') label = Some (map VBool flags) /\
         length flags = nrows f) /\
    ((forall x, In x derived_columns -> ~ In x (column_names f)) ->
     forall name values,
       get_column (columns f) name = Some values ->
       get_column (columns f') name = Some values).
Proof.
  intros Hr Hwf Hstmt.
  destruct (statement_column_values f Hwf Hstmt) as (statements & Hget & Hlen).
  eexists _, _, (enriched_frame f statements).
  split; [apply (enrich_dataframe_run r f statements st Hr Hget Hlen) |].
  split; [simpl; apply list_lookup_middle; reflexivity |].
  split; [apply nrows_enriched_frame |].
  split; [intros name Hname; apply get_enriched_other; exact Hname |].
  split; [apply column_names_enriched_frame |].
  split.
  - intros label Hkey.
    exists (map (fun text => str_mem label (labels_of text)) statements).
    rewrite (get_enriched_flags f statements label Hlen Hkey).
    unfold flag_values. rewrite map_map, length_map. split; [reflexivity | exact Hlen].
  - intros Hfree name values Hname.
    rewrite get_enriched_other; [exact Hname |].
    intros Hd. apply (Hfree name Hd). apply str_mem_In.
    apply get_column_mem. exists values. exact Hname.
Qed.

(** C4: on a frame without a statement column, whatever its number of rows,
    [enrich_dataframe] raises its validation error at once: the state is the
    one it was called in, so no copy was made and nothing was classified. *)
Theorem enrich_dataframe_missing_column (st : state) (r : ref) (f : DataFrame) :
  heap st !! r = Some f ->
  ~ In statement_column (column_names f) ->
  enrich_dataframe r st = (st, Raise (ValueError missing_statement_message)).
Proof.
  intros Hr Hmissing. unfold enrich_dataframe.
  rewrite (bind_ok _ _ _ _ _ (df_columns_run r f st Hr)).
  apply str_mem_not_In in Hmissing. rewrite Hmissing. reflexivity.
Qed.

(** C5: in every row of the enriched frame and for every label of the
    dictionary, the cell under the label is the boolean telling whether the
    label is in the list of the row's labels cell. *)
Theorem enrich_dataframe_flags (st : state) (r : ref) (f : DataFrame) :
  heap st !! r = Some f ->
  wf_frame f ->
  In statement_column (column_names f) ->
  exists st' r' f' labels_series,
    enrich_dataframe r st = (st', Ok r') /\
    heap st' !! r' = Some f' /\
    get_column (columns f') labels_column = Some labels_series /\
    length labels_series = nrows f' /\
    forall label, In label (dict_keys dictionaries) ->
      exists flag_series,
        get_column (columns f') label = Some flag_series /\
        forall i, (i < nrows f')%nat ->
          exists cats b,
            labels_series !! i = Some (VList cats) /\
            flag_series !! i = Some (VBool b) /\
            (b = true <-> In label cats).
Proof.
  intros Hr Hwf Hstmt.
  destruct (statement_column_values f Hwf Hstmt) as (statements & Hget & Hlen).
  eexists _, _, (enriched_frame f statements), (label_values statements).
  split; [apply (enrich_dataframe_run r f statements st Hr Hget Hlen) |].
  split; [simpl; apply list_lookup_middle; reflexivity |].
  split; [apply get_enriched_labels; exact Hlen |].
  rewrite nrows_enriched_frame.
  split; [unfold label_values; rewrite length_map; exact Hlen |].
  intros label Hkey. exists (flag_values label statements).
  split; [apply get_enriched_flags; assumption |].
  intros i Hi. rewrite <- Hlen in Hi.
  destruct (lookup_lt_is_Some_2 statements i Hi) as (text & Htext).
  exists (labels_of text), (str_mem label (labels_of text)).
  unfold label_values, flag_values. rewrite !list_lookup_fmap, Htext.
  repeat split; [apply str_mem_In | apply str_mem_In].
Qed.

(** C6: [enrich_dataframe] works on a copy.  The reference it returns is a
    new one, and the frame of the argument, like every frame allocated
    before the call, is after the call what it was before. *)
Theorem enrich_dataframe_frame (st : state) (r : ref) (f : DataFrame) :
  heap st !! r = Some f ->
  wf_frame f ->
  In statement_column (column_names f) ->
  exists st' r',
    enrich_dataframe r st = (st', Ok r') /\
    r' <> r /\
    heap st !! r' = None /\
    is_Some (heap st' !! r') /\
    heap st' !! r = Some f /\
    forall q g, heap st !! q = Some g -> heap st' !! q = Some g.
Proof.
  intros Hr Hwf Hstmt.
  destruct (statement_column_values f Hwf Hstmt) as (statements & Hget & Hlen).
  eexists _, _.
  split; [apply (enrich_dataframe_run r f statements st Hr Hget Hlen) |].
  pose proof (lookup_lt_Some _ _ _ Hr) as Hlt.
  split; [lia |].
  split; [apply lookup_ge_None_2; lia |].
  split; [simpl; rewrite list_lookup_middle by reflexivity; eauto |].
  assert (Hold : forall q g, heap st !! q = Some g ->
            (heap st ++ [enriched_frame f statements]) !! q = Some g).
  { intros q g Hq. rewrite lookup_app_l; [exact Hq | apply (lookup_lt_Some _ _ _ Hq)]. }
  split; [apply Hold; exact Hr | exact Hold].
Qed.

(** C7: enriching, removing the derived columns and enriching again gives
    the boolean columns of the first enrichment. *)
Theorem enrich_dataframe_idempotent (st : state) (r : ref) (f : DataFrame) :
  heap st !! r = Some f ->
  wf_frame f ->
  In statement_column (column_names f) ->
  exists st1 r1 f1,
    enrich_dataframe r st = (st1, Ok r1) /\
    heap st1 !! r1 = Some f1 /\
    forall st2 r2,
      heap st2 !! r2 = Some (enrich_labels_removed f1) ->
      exists st3 r3 f3,
        enrich_dataframe r2 st2 = (st3, Ok r3) /\
        heap st3 !! r3 = Some f3 /\
        forall label, In label (dict_keys dictionaries) ->
          exists flags,
            get_column (columns f1) label = Some flags /\
            get_column (columns f3) label = Some flags.
Proof.
  intros Hr Hwf Hstmt.
  destruct (statement_column_values f Hwf Hstmt) as (statements & Hget & Hlen).
  eexists _, _, (enriched_frame f statements).
  split; [apply (enrich_dataframe_run r f statements st Hr Hget Hlen) |].
  split; [simpl; apply list_lookup_middle; reflexivity |].
  intros st2 r2 Hr2.
  set (f2 := enrich_labels_removed (enriched_frame f statements)) in *.
  assert (Hget2 : get_column (columns f2) statement_column = Some statements).
  { unfold f2. rewrite get_column_removed by apply statement_column_not_derived.
    rewrite get_enriched_other by apply statement_column_not_derived. exact Hget. }
  assert (Hlen2 : length statements = nrows f2).
  { unfold f2. simpl. rewrite nrows_enriched_frame. exact Hlen. }
  eexists _, _, (enriched_frame f2 statements).
  split; [apply (enrich_dataframe_run r2 f2 statements st2 Hr2 Hget2 Hlen2) |].
  split; [simpl; apply list_lookup_middle; reflexivity |].
  intros label Hkey. exists (flag_values label statements).
  split; apply get_enriched_flags; assumption.
Qed.

(** ** Export *)

(** *** Well-formed text *)

Lemma wf_text_app (a b : pystr) : wf_text (a ++ b) = wf_text a && wf_text b.
Proof. apply forallb_app. Qed.

Lemma is_scalar_small (c : N) : c < 0xD800 -> is_scalar c = true.
Proof.
  intros H. unfold is_scalar. apply andb_true_iff. split.
  - apply N.ltb_lt. lia.
  - apply negb_true_iff, andb_false_iff. left. apply N.leb_gt. exact H.
Qed.

Lemma wf_text_small (s : pystr) :
  (forall c, In c s -> c < 0xD800) -> wf_text s = true.
Proof.
  intros H. apply forallb_forall. intros c Hc. apply is_scalar_small, H, Hc.
Qed.

Lemma wf_text_py (s : string) : wf_text (py s) = true.
Proof.
  apply wf_text_small. intros c Hc. unfold py in Hc.
  apply in_map_iff in Hc. destruct Hc as (a & <- & _).
  pose proof (N_ascii_bounded a). lia.
Qed.

Lemma wf_text_hex_fixed (width : nat) (n : N) : wf_text (hex_fixed width n) = true.
Proof.
  revert n. induction width as [|w IH]; intros n; [reflexivity |].
  cbn [hex_fixed]. rewrite wf_text_app, IH. simpl. rewrite andb_true_r.
  apply is_scalar_small. unfold hex_digit.
  pose proof (N.mod_lt n 16). destruct (n mod 16 <? 10); lia.
Qed.

Lemma wf_text_repr_escape (quote c : N) :
  is_scalar c = true -> wf_text (repr_escape quote c) = true.
Proof.
  intros Hc. unfold repr_escape.
  repeat match goal with
         | |- context [if ?b then _ else _] => destruct b
         end;
    rewrite ?wf_text_app, ?wf_text_hex_fixed; try reflexivity;
    simpl; rewrite Hc; reflexivity.
Qed.

Lemma wf_text_flat_map (g : N -> pystr) (s : pystr) :
  (forall c, is_scalar c = true -> wf_text (g c) = true) ->
  wf_text s = true -> wf_text (flat_map g s) = true.
Proof.
  intros Hg. induction s as [|c s IH]; [reflexivity |].
  simpl. rewrite andb_true_iff. intros [Hc Hs].
  rewrite wf_text_app, (Hg c Hc), (IH Hs). reflexivity.
Qed.

Lemma wf_text_repr_str (s : pystr) : wf_text s = true -> wf_text (repr_str s) = true.
Proof.
  intros Hs. unfold repr_str.
  set (quote := if contains [39] s && negb (contains [34] s) then 34 else 39).
  assert (Hq : is_scalar quote = true).
  { unfold quote. destruct (contains [39] s && negb (contains [34] s)); reflexivity. }
  change (wf_text ([quote] ++ flat_map (repr_escape quote) s ++ [quote]) = true).
  rewrite !wf_text_app.
  rewrite (wf_text_flat_map _ s (wf_text_repr_escape quote) Hs).
  simpl. rewrite Hq. reflexivity.
Qed.

Lemma wf_text_join (sep : pystr) (parts : list pystr) :
  wf_text sep = true ->
  forallb wf_text parts = true ->
  wf_text (join sep parts) = true.
Proof.
  intros Hsep. induction parts as [|p rest IH]; [reflexivity |].
  cbn [forallb]. rewrite andb_true_iff. intros [Hp Hrest].
  destruct rest as [|q rest]; [exact Hp |].
  change (join sep (p :: q :: rest)) with (p ++ sep ++ join sep (q :: rest)).
  rewrite !wf_text_app, Hp, Hsep, (IH Hrest). reflexivity.
Qed.

Lemma forallb_map {A B} (g : A -> B) (p : B -> bool) (l : list A) :
  forallb p (map g l) = forallb (fun x => p (g x)) l.
Proof. induction l as [|x l IH]; simpl; [| rewrite IH]; reflexivity. Qed.

Lemma forallb_impl {A} (p q : A -> bool) (l : list A) :
  (forall x, p x = true -> q x = true) ->
  forallb p l = true -> forallb q l = true.
Proof.
  intros Hpq. rewrite !forallb_forall. intros H x Hx. apply Hpq, H, Hx.
Qed.

Lemma wf_text_py_str (v : pyval) : wf_value v = true -> wf_text (py_str v) = true.
Proof.
  destruct v as [s | z | r | [|] | items]; simpl;
    try (intros H; exact H); try (intros _; apply wf_text_py).
  intros Hitems.
  change (wf_text (py "[" ++ join (py ", ") (map repr_str items) ++ py "]") = true).
  rewrite !wf_text_app, !wf_text_py, andb_true_r. simpl.
  apply wf_text_join; [apply wf_text_py |].
  rewrite forallb_map. revert Hitems. apply forallb_impl, wf_text_repr_str.
Qed.

Lemma wf_text_csv_cell (v : pyval) : wf_value v = true -> wf_text (csv_cell v) = true.
Proof.
  intros Hv. destruct v; try (apply (wf_text_py_str _ Hv)).
  simpl. destruct (str_eqb repr (py "nan")); [reflexivity | exact Hv].
Qed.

Lemma wf_text_csv_field (field : pystr) :
  wf_text field = true -> wf_text (csv_field field) = true.
Proof.
  intros Hf. unfold csv_field. destruct (existsb csv_special field); [| exact Hf].
  change (wf_text ([34] ++ flat_map (fun c => if c =? 34 then [34; 34] else [c]) field
                   ++ [34]) = true).
  rewrite !wf_text_app. rewrite wf_text_flat_map; [reflexivity | | exact Hf].
  intros c Hc. destruct (c =? 34); [reflexivity |]. simpl. rewrite Hc. reflexivity.
Qed.

Lemma wf_text_csv_row (fields : list pystr) :
  forallb wf_text fields = true -> wf_text (csv_row fields) = true.
Proof.
  intros Hfields. unfold csv_row. rewrite wf_text_app, andb_true_r.
  assert (Hjoin : wf_text (join [44] (map csv_field fields)) = true).
  { apply wf_text_join; [reflexivity |]. rewrite forallb_map.
    revert Hfields. apply forallb_impl, wf_text_csv_field. }
  destruct fields as [|[|c field] [|field2 fields]]; exact Hjoin.
Qed.

Lemma wf_column_names (f : DataFrame) :
  wf_frame_text f = true -> forallb wf_text (column_names f) = true.
Proof.
  unfold wf_frame_text, column_names. rewrite forallb_map.
  apply forallb_impl. intros kv H. apply andb_true_iff in H. tauto.
Qed.

Lemma wf_row_cells (f : DataFrame) (i : nat) :
  wf_frame_text f = true -> forallb wf_value (row_cells f i) = true.
Proof.
  unfold wf_frame_text, row_cells. rewrite forallb_map.
  apply forallb_impl. intros [k vs] H. apply andb_true_iff in H.
  destruct H as [_ Hvs]. simpl in *.
  destruct (nth_in_or_default i vs nan) as [Hin | ->]; [| reflexivity].
  rewrite forallb_forall in Hvs. apply Hvs, Hin.
Qed.

Lemma wf_text_to_csv (f : DataFrame) :
  wf_frame_text f = true -> wf_text (to_csv f) = true.
Proof.
  intros Hf. unfold to_csv. rewrite wf_text_app.
  rewrite (wf_text_csv_row _ (wf_column_names f Hf)). simpl.
  induction (seq 0 (nrows f)) as [|i l IH]; [reflexivity |].
  simpl. rewrite wf_text_app, IH, andb_true_r.
  apply wf_text_csv_row. rewrite forallb_map.
  generalize (wf_row_cells f i Hf). apply forallb_impl, wf_text_csv_cell.
Qed.

(** *** Encoding *)

Lemma utf8_cp_scalar (c : N) : is_scalar c = true -> exists bytes, utf8_cp c = Some bytes.
Proof.
  unfold is_scalar, utf8_cp. rewrite andb_true_iff, negb_true_iff.
  intros [Hmax Hsur]. rewrite Hmax, Hsur.
  destruct (c <? 0x80); [eauto |].
  destruct (c <? 0x800); [eauto |].
  destruct (c <? 0x10000); eauto.
Qed.

Lemma utf8_bytes_app (a b : pystr) : utf8_bytes (a ++ b) = utf8_bytes a ++ utf8_bytes b.
Proof. unfold utf8_bytes. apply flat_map_app. Qed.

(** Well-formed text always encodes. *)
Lemma utf8_encode_wf (s : pystr) (position : nat) :
  wf_text s = true -> utf8_encode position s = Ok (utf8_bytes s).
Proof.
  revert position. induction s as [|c s IH]; intros position; [reflexivity |].
  simpl. rewrite andb_true_iff. intros [Hc Hs].
  destruct (utf8_cp_scalar c Hc) as (bytes & Hbytes).
  rewrite Hbytes, (IH (S position) Hs). reflexivity.
Qed.

(** The encoding name of the source is a name of the UTF-8 codec. *)
Lemma utf8_literal_known :
  str_mem (normalize_encoding utf8_literal false []) utf8_names = true.
Proof. vm_compute. reflexivity. Qed.

Lemma str_encode_wf (s : pystr) (st : state) :
  wf_text s = true -> str_encode s utf8_literal st = (st, Ok (utf8_bytes s)).
Proof.
  intros Hs. unfold str_encode. rewrite utf8_literal_known, (utf8_encode_wf s 0 Hs).
  reflexivity.
Qed.

Lemma get_csv_download_run (r : ref) (f : DataFrame) (original_name : pystr)
    (st : state) :
  heap st !! r = Some f ->
  wf_frame_text f = true ->
  get_csv_download r original_name st
  = (st, Ok (utf8_bytes (to_csv f), path_stem original_name ++ py "_classified.csv")).
Proof.
  intros Hr Hf. unfold get_csv_download.
  rewrite (bind_ok _ _ _ _ _ (get_frame_run r f st Hr)).
  rewrite (bind_ok _ _ _ _ _ (str_encode_wf (to_csv f) st (wf_text_to_csv f Hf))).
  reflexivity.
Qed.

(** *** File names *)

Lemma split_on_absent (sep : N) (s : pystr) : ~ In sep s -> split_on sep s = [s].
Proof.
  induction s as [|c s IH]; intros Hs; [reflexivity |].
  simpl. destruct (c =? sep) eqn:E.
  - apply N.eqb_eq in E. exfalso. apply Hs. left. exact E.
  - rewrite IH; [reflexivity |]. intros H. apply Hs. right. exact H.
Qed.

Lemma rfind_dot_absent (s : pystr) : ~ In 46 s -> rfind_dot s = None.
Proof.
  induction s as [|c s IH]; intros Hs; [reflexivity |].
  simpl. rewrite IH by (intros H; apply Hs; right; exact H).
  destruct (c =? 46) eqn:E; [| reflexivity].
  apply N.eqb_eq in E. exfalso. apply Hs. left. exact E.
Qed.

Lemma rfind_dot_last (base ext : pystr) :
  ~ In 46 ext -> rfind_dot (base ++ 46 :: ext) = Some (length base).
Proof.
  intros Hext. induction base as [|c base IH]; simpl.
  - rewrite (rfind_dot_absent ext Hext). reflexivity.
  - rewrite IH. reflexivity.
Qed.

(** The stem of a plain file name is the name up to its last dot. *)
Lemma path_stem_extension (base ext : pystr) :
  base <> [] -> ext <> [] ->
  ~ In 47 base -> ~ In 47 ext -> ~ In 46 ext ->
  path_stem (base ++ [46] ++ ext) = base.
Proof.
  intros Hbase Hext Hslash1 Hslash2 Hdot.
  change ([46] ++ ext) with (46 :: ext).
  set (name := base ++ 46 :: ext).
  assert (Hname : path_name name = name).
  { unfold path_name, path_parts. rewrite split_on_absent.
    - cbn [List.filter].
      assert (str_eqb name [] = false) as ->.
      { apply str_eqb_neq. unfold name. destruct base; [congruence | discriminate]. }
      assert (str_eqb name [46] = false) as ->.
      { apply str_eqb_neq. unfold name.
        destruct base as [|b [|b2 base]]; [congruence | | discriminate].
        destruct ext; [congruence | discriminate]. }
      reflexivity.
    - unfold name. rewrite in_app_iff. simpl.
      intros [H | [H | H]]; [tauto | discriminate | tauto]. }
  unfold path_stem. rewrite Hname. unfold name at 1.
  rewrite (rfind_dot_last base ext Hdot).
  assert ((0 <? length base)%nat && (length base <? length name - 1)%nat = true) as ->.
  { apply andb_true_iff. unfold name. rewrite !length_app. simpl.
    destruct base; [congruence |]. destruct ext; [congruence |]. simpl.
    split; apply Nat.ltb_lt; lia. }
  unfold name. apply take_app_length.
Qed.



(** ** Scenarios *)

Example classify_urgency (st : state) :
  snd (classify_statement (VStr (py "Limited time offer, act now!")) st)
  = Ok [py "urgency_marketing"].
Proof. vm_compute. reflexivity. Qed.

Example classify_exclusive (st : state) :
  snd (classify_statement (VStr (py "Join our exclusive VIP members only event")) st)
  = Ok [py "exclusive_marketing"].
Proof. vm_compute. reflexivity. Qed.

Example classify_both (st : state) :
  snd (classify_statement (VStr (py "Exclusive offer - act now, limited supply!")) st)
  = Ok [py "urgency_marketing"; py "exclusive_marketing"].
Proof. vm_compute. reflexivity. Qed.

Example classify_none (st : state) :
  snd (classify_statement (VStr (py "Our new product line is now available")) st)
  = Ok [].
Proof. vm_compute. reflexivity. Qed.

(** A phrase is found inside a longer word. *)
Example classify_inside_word (st : state) :
  snd (classify_statement (VStr (py "equivip")) st) = Ok [py "exclusive_marketing"].
Proof. vm_compute. reflexivity. Qed.

Example enrich_sample :
  enrich_dataframe 0%nat (sample_state sample_frame)
  = (mkState [sample_frame; sample_enriched_frame]
       [ VStr (py "Limited time offer, act now!");
         VStr (py "Join our exclusive VIP members only event") ],
     Ok 1%nat).
Proof. vm_compute. reflexivity. Qed.

Example utf8_samples :
  utf8_encode 0 [0x41; 0xE9; 0x20AC; 0x1F50D]
  = Ok [x41; xc3; xa9; xe2; x82; xac; xf0; x9f; x94; x8d] /\
  utf8_encode 0 [0x41; 0xD800] = Raise (UnicodeEncodeError 1).
Proof. split; vm_compute; reflexivity. Qed.

Example path_stem_samples :
  map path_stem [py "dir/data.csv"; py ".csv"; py "data."; py "data"; py "x.tar.gz"]
  = [py "data"; py ".csv"; py "data."; py "data"; py "x.tar"].
Proof. vm_compute. reflexivity. Qed.

(** * Further properties *)

(** ** [classify_statement] on embedded text *)

Lemma contains_embed (kw pre text post : pystr) :
  contains kw text = true -> contains kw (pre ++ text ++ post) = true.
Proof.
  rewrite !contains_spec. intros (a & b & ->).
  exists (pre ++ a), (b ++ post). rewrite <- !app_assoc. reflexivity.
Qed.

Lemma phrase_hit_embed (pre text post : pystr) (entry : pystr * list pystr) :
  phrase_hit (lower text) entry = true ->
  phrase_hit (lower (pre ++ text ++ post)) entry = true.
Proof.
  unfold phrase_hit. rewrite !existsb_exists. intros (kw & Hkw & Hc).
  exists kw. split; [exact Hkw |]. rewrite !lower_app. apply contains_embed, Hc.
Qed.

Lemma filter_sublist_impl {A} (p q : A -> bool) (l : list A) :
  (forall x, p x = true -> q x = true) ->
  sublist (List.filter p l) (List.filter q l).
Proof.
  intros Hpq. induction l as [|x l IH]; simpl; [constructor |].
  destruct (p x) eqn:Hp.
  - rewrite (Hpq x Hp). constructor. exact IH.
  - destruct (q x); [constructor |]; exact IH.
Qed.

Lemma sublist_map {A B} (g : A -> B) (l1 l2 : list A) :
  sublist l1 l2 -> sublist (map g l1) (map g l2).
Proof. induction 1; simpl; constructor; assumption. Qed.

(** X1: text can only gain labels by being placed inside a longer text.  The
    labels of a text are, in the same order, among the labels of every text
    that contains it as a contiguous part. *)
Theorem classify_statement_monotone (pre text post : pystr) (st st' : state) :
  exists inner outer,
    snd (classify_statement (VStr text) st) = Ok inner /\
    snd (classify_statement (VStr (pre ++ text ++ post)) st') = Ok outer /\
    sublist inner outer /\
    forall label, In label inner -> In label outer.
Proof.
  eexists _, _. rewrite !classify_statement_run. cbn [snd py_str].
  split; [reflexivity |]. split; [reflexivity |].
  assert (Hsub : sublist (matched_labels dictionaries (lower text))
                   (matched_labels dictionaries (lower (pre ++ text ++ post)))).
  { rewrite !matched_labels_filter. apply sublist_map, filter_sublist_impl.
    intros entry. apply phrase_hit_embed. }
  split; [exact Hsub |].
  intros label Hin. apply list_elem_of_In.
  apply (elem_of_sublist _ _ _ (proj2 (list_elem_of_In _ _) Hin) Hsub).
Qed.

(** ** More on [enrich_dataframe] *)

(** X2: in the enriched frame the labels cell of a row holds the list
    [classify_statement] returns on the statement of that row, which is made
    of dictionary labels in dictionary order. *)
Theorem enrich_dataframe_row_labels (st : state) (r : ref) (f : DataFrame) :
  heap st !! r = Some f ->
  wf_frame f ->
  In statement_column (column_names f) ->
  exists st' r' f' statements labels_series,
    enrich_dataframe r st = (st', Ok r') /\
    heap st' !! r' = Some f' /\
    get_column (columns f) statement_column = Some statements /\
    get_column (columns f') statement_column = Some statements /\
    get_column (columns f') labels_column = Some labels_series /\
    forall i text,
      statements !! i = Some text ->
      exists labels,
        (forall st0, snd (classify_statement text st0) = Ok labels) /\
        labels_series !! i = Some (VList labels) /\
        sublist labels (dict_keys dictionaries).
Proof.
  intros Hr Hwf Hstmt.
  destruct (statement_column_values f Hwf Hstmt) as (statements & Hget & Hlen).
  eexists _, _, (enriched_frame f statements), statements, (label_values statements).
  split; [apply (enrich_dataframe_run r f statements st Hr Hget Hlen) |].
  split; [simpl; apply list_lookup_middle; reflexivity |].
  split; [exact Hget |].
  split.
  { rewrite get_enriched_other; [exact Hget | apply statement_column_not_derived]. }
  split; [apply get_enriched_labels; exact Hlen |].
  intros i text Htext. exists (labels_of text).
  split; [intros st0; reflexivity |].
  split; [unfold label_values; rewrite list_lookup_fmap, Htext; reflexivity |].
  apply matched_labels_sublist.
Qed.

(** X3: a successful enrichment classifies every statement of the table
    exactly once, from the first row to the last, and nothing else. *)
Theorem enrich_dataframe_classifies_once (st : state) (r : ref) (f : DataFrame) :
  heap st !! r = Some f ->
  wf_frame f ->
  In statement_column (column_names f) ->
  exists st' r' statements,
    enrich_dataframe r st = (st', Ok r') /\
    get_column (columns f) statement_column = Some statements /\
    length statements = nrows f /\
    classified st' = classified st ++ statements.
Proof.
  intros Hr Hwf Hstmt.
  destruct (statement_column_values f Hwf Hstmt) as (statements & Hget & Hlen).
  eexists _, _, statements.
  split; [apply (enrich_dataframe_run r f statements st Hr Hget Hlen) |].
  split; [exact Hget |]. split; [exact Hlen | reflexivity].
Qed.

Lemma replace_absent (cols : list (pystr * list pyval)) (key : pystr)
    (vs : list pyval) :
  ~ In key (map fst cols) ->
  map (fun kv => if str_eqb (fst kv) key then (fst kv, vs) else kv) cols = cols.
Proof.
  induction cols as [|[k v] cols IH]; intros Hkey; [reflexivity |].
  simpl. destruct (str_eqb k key) eqn:E.
  - apply str_eqb_eq in E. exfalso. apply Hkey. left. exact E.
  - rewrite IH; [reflexivity |]. intros H. apply Hkey. right. exact H.
Qed.

Lemma replace_same (cols : list (pystr * list pyval)) (key : pystr)
    (vs : list pyval) :
  NoDup (map fst cols) ->
  get_column cols key = Some vs ->
  map (fun kv => if str_eqb (fst kv) key then (fst kv, vs) else kv) cols = cols.
Proof.
  induction cols as [|[k v] cols IH]; intros Hnd Hget; [reflexivity |].
  simpl in *. apply NoDup_cons in Hnd. destruct Hnd as [Hfresh Hnd].
  destruct (str_eqb k key) eqn:E.
  - apply str_eqb_eq in E. subst k. injection Hget as ->.
    rewrite replace_absent; [reflexivity |].
    intros H. apply Hfresh. apply list_elem_of_In. exact H.
  - rewrite (IH Hnd Hget). reflexivity.
Qed.

(** Assigning to a column the values it has changes nothing. *)
Lemma set_column_same (g : DataFrame) (key : pystr) (vs : list pyval) :
  wf_frame g ->
  get_column (columns g) key = Some vs ->
  set_column g key vs = g.
Proof.
  intros Hwf Hget. unfold set_column.
  assert (str_mem key (column_names g) = true) as -> by (apply get_column_mem; eauto).
  rewrite (align_exact _ _ (wf_column_length g key vs Hwf Hget)).
  rewrite (replace_same _ _ _ (proj1 Hwf) Hget). destruct g; reflexivity.
Qed.

Lemma add_flags_same (statements : list pyval) (labels : list pystr) (g : DataFrame) :
  wf_frame g ->
  (forall label, In label labels ->
     get_column (columns g) label = Some (flag_values label statements)) ->
  add_flags statements labels g = g.
Proof.
  intros Hwf. induction labels as [|l ls IH]; intros Hcols; [reflexivity |].
  unfold add_flags in *. cbn [fold_left].
  rewrite (set_column_same g l _ Hwf (Hcols l (or_introl eq_refl))).
  apply IH. intros label Hl. apply Hcols. right. exact Hl.
Qed.

(** X4: enriching an enriched table gives the same table again, all columns
    in the same places. *)
Theorem enrich_dataframe_fixpoint (st : state) (r : ref) (f : DataFrame) :
  heap st !! r = Some f ->
  wf_frame f ->
  In statement_column (column_names f) ->
  exists st1 r1 f1,
    enrich_dataframe r st = (st1, Ok r1) /\
    heap st1 !! r1 = Some f1 /\
    forall st2 r2,
      heap st2 !! r2 = Some f1 ->
      exists st3 r3,
        enrich_dataframe r2 st2 = (st3, Ok r3) /\
        heap st3 !! r3 = Some f1.
Proof.
  intros Hr Hwf Hstmt.
  destruct (statement_column_values f Hwf Hstmt) as (statements & Hget & Hlen).
  set (f1 := enriched_frame f statements).
  eexists _, _, f1.
  split; [apply (enrich_dataframe_run r f statements st Hr Hget Hlen) |].
  split; [simpl; apply list_lookup_middle; reflexivity |].
  intros st2 r2 Hr2.
  assert (Hwf1 : wf_frame f1) by apply wf_enriched_frame, Hwf.
  assert (Hget1 : get_column (columns f1) statement_column = Some statements).
  { unfold f1. rewrite get_enriched_other; [exact Hget |].
    apply statement_column_not_derived. }
  assert (Hlen1 : length statements = nrows f1).
  { unfold f1. rewrite nrows_enriched_frame. exact Hlen. }
  assert (Hsame : enriched_frame f1 statements = f1).
  { unfold enriched_frame at 1.
    rewrite (set_column_same f1 labels_column (label_values statements) Hwf1
               (get_enriched_labels f statements Hlen)).
    apply add_flags_same; [exact Hwf1 |].
    intros label Hkey. apply get_enriched_flags; assumption. }
  eexists _, _.
  split; [apply (enrich_dataframe_run r2 f1 statements st2 Hr2 Hget1 Hlen1) |].
  rewrite Hsame. simpl. apply list_lookup_middle. reflexivity.
Qed.

Lemma column_names_add_flags_fresh (statements : list pyval) (labels : list pystr)
    (g : DataFrame) :
  NoDup labels ->
  (forall x, In x labels -> ~ In x (column_names g)) ->
  column_names (add_flags statements labels g) = column_names g ++ labels.
Proof.
  revert g. induction labels as [|l ls IH]; intros g Hnd Hfresh.
  - symmetry. apply app_nil_r.
  - apply NoDup_cons in Hnd. destruct Hnd as [Hl Hnd].
    change (add_flags statements (l :: ls) g)
      with (add_flags statements ls (set_column g l (flag_values l statements))).
    assert (Hnames : column_names (set_column g l (flag_values l statements))
                     = column_names g ++ [l]).
    { rewrite column_names_set_column.
      assert (str_mem l (column_names g) = false) as ->; [| reflexivity].
      apply str_mem_not_In, Hfresh. left. reflexivity. }
    rewrite IH; [rewrite Hnames, <- app_assoc; reflexivity | exact Hnd |].
    intros x Hx. rewrite Hnames, in_app_iff. intros [H | [H | []]].
    + apply (Hfresh x); [right; exact Hx | exact H].
    + subst x. apply Hl. apply list_elem_of_In. exact Hx.
Qed.

(** X5: the enriched frame is again a frame with distinct column labels and
    full columns; when the input has no column with a derived label, its
    columns are those of the input followed by [labels] and one column per
    dictionary label, in dictionary order. *)
Theorem enrich_dataframe_columns (st : state) (r : ref) (f : DataFrame) :
  heap st !! r = Some f ->
  wf_frame f ->
  In statement_column (column_names f) ->
  exists st' r' f',
    enrich_dataframe r st = (st', Ok r') /\
    heap st' !! r' = Some f' /\
    wf_frame f' /\
    ((forall x, In x derived_columns -> ~ In x (column_names f)) ->
     column_names f' = column_names f ++ labels_column :: dict_keys dictionaries).
Proof.
  intros Hr Hwf Hstmt.
  destruct (statement_column_values f Hwf Hstmt) as (statements & Hget & Hlen).
  eexists _, _, (enriched_frame f statements).
  split; [apply (enrich_dataframe_run r f statements st Hr Hget Hlen) |].
  split; [simpl; apply list_lookup_middle; reflexivity |].
  split; [apply wf_enriched_frame, Hwf |].
  intros Hfree. unfold enriched_frame.
  assert (Hnames : column_names (set_column f labels_column (label_values statements))
                   = column_names f ++ [labels_column]).
  { rewrite column_names_set_column.
    assert (str_mem labels_column (column_names f) = false) as ->; [| reflexivity].
    apply str_mem_not_In, Hfree. left. reflexivity. }
  rewrite column_names_add_flags_fresh.
  - rewrite Hnames, <- app_assoc. reflexivity.
  - exact dictionaries_keys_NoDup.
  - intros x Hx. rewrite Hnames, in_app_iff. intros [H | [H | []]].
    + apply (Hfree x); [right; exact Hx | exact H].
    + subst x. apply labels_column_not_key. exact Hx.
Qed.

(** *** Enrichment and the first rows *)

Lemma column_names_head (n : nat) (f : DataFrame) :
  column_names (head n f) = column_names f.
Proof. unfold head, column_names. simpl. rewrite map_map. reflexivity. Qed.

Lemma get_column_head (n : nat) (f : DataFrame) (key : pystr) :
  get_column (columns (head n f)) key
  = option_map (take n) (get_column (columns f) key).
Proof.
  unfold head. simpl. induction (columns f) as [|[k v] cols IH]; simpl; [reflexivity |].
  destruct (str_eqb k key); [reflexivity | exact IH].
Qed.

Lemma head_set_column (n : nat) (f : DataFrame) (key : pystr) (vs : list pyval) :
  length vs = nrows f ->
  head n (set_column f key vs) = set_column (head n f) key (take n vs).
Proof.
  intros Hlen. unfold set_column. rewrite column_names_head.
  rewrite (align_exact _ _ Hlen).
  assert (align (nrows (head n f)) (take n vs) = take n vs) as ->.
  { apply align_exact. simpl. rewrite length_take, Hlen. reflexivity. }
  destruct (str_mem key (column_names f)); unfold head; simpl; f_equal.
  - rewrite !map_map. apply map_ext. intros [k v]. simpl.
    destruct (str_eqb k key); reflexivity.
  - rewrite map_app. reflexivity.
Qed.

Lemma flag_values_take (n : nat) (label : pystr) (statements : list pyval) :
  flag_values label (take n statements) = take n (flag_values label statements).
Proof. unfold flag_values. symmetry. apply firstn_map. Qed.

Lemma label_values_take (n : nat) (statements : list pyval) :
  label_values (take n statements) = take n (label_values statements).
Proof. unfold label_values. symmetry. apply firstn_map. Qed.

Lemma head_add_flags (n : nat) (statements : list pyval) (labels : list pystr)
    (g : DataFrame) :
  length statements = nrows g ->
  head n (add_flags statements labels g)
  = add_flags (take n statements) labels (head n g).
Proof.
  revert g. induction labels as [|l ls IH]; intros g Hlen; [reflexivity |].
  change (add_flags statements (l :: ls) g)
    with (add_flags statements ls (set_column g l (flag_values l statements))).
  change (add_flags (take n statements) (l :: ls) (head n g))
    with (add_flags (take n statements) ls
            (set_column (head n g) l (flag_values l (take n statements)))).
  rewrite IH by (rewrite nrows_set_column; exact Hlen).
  rewrite head_set_column by (unfold flag_values; rewrite length_map; exact Hlen).
  rewrite flag_values_take. reflexivity.
Qed.

Lemma head_enriched_frame (n : nat) (f : DataFrame) (statements : list pyval) :
  length statements = nrows f ->
  head n (enriched_frame f statements)
  = enriched_frame (head n f) (take n statements).
Proof.
  intros Hlen. unfold enriched_frame.
  rewrite head_add_flags by (rewrite nrows_set_column; exact Hlen).
  rewrite head_set_column by (unfold label_values; rewrite length_map; exact Hlen).
  rewrite label_values_take. reflexivity.
Qed.

(** X6: enrichment works row by row, so it commutes with taking the first
    rows: enriching the first [n] rows of a table gives the first [n] rows of
    the enriched table. *)
Theorem enrich_dataframe_head (st : state) (r : ref) (f : DataFrame) :
  heap st !! r = Some f ->
  wf_frame f ->
  In statement_column (column_names f) ->
  exists st1 r1 f1,
    enrich_dataframe r st = (st1, Ok r1) /\
    heap st1 !! r1 = Some f1 /\
    forall n st2 r2,
      heap st2 !! r2 = Some (head n f) ->
      exists st3 r3,
        enrich_dataframe r2 st2 = (st3, Ok r3) /\
        heap st3 !! r3 = Some (head n f1).
Proof.
  intros Hr Hwf Hstmt.
  destruct (statement_column_values f Hwf Hstmt) as (statements & Hget & Hlen).
  eexists _, _, (enriched_frame f statements).
  split; [apply (enrich_dataframe_run r f statements st Hr Hget Hlen) |].
  split; [simpl; apply list_lookup_middle; reflexivity |].
  intros n st2 r2 Hr2.
  assert (Hget2 : get_column (columns (head n f)) statement_column
                  = Some (take n statements)).
  { rewrite get_column_head, Hget. reflexivity. }
  assert (Hlen2 : length (take n statements) = nrows (head n f)).
  { simpl. rewrite length_take, Hlen. reflexivity. }
  eexists _, _.
  split; [apply (enrich_dataframe_run r2 _ _ st2 Hr2 Hget2 Hlen2) |].
  rewrite (head_enriched_frame n f statements Hlen).
  simpl. apply list_lookup_middle. reflexivity.
Qed.

(** *** Enrichment and export *)

Lemma forallb_take {A} (p : A -> bool) (n : nat) (l : list A) :
  forallb p l = true -> forallb p (take n l) = true.
Proof.
  revert n. induction l as [|x l IH]; intros [|n]; simpl; try reflexivity.
  rewrite !andb_true_iff. intros [Hx Hl]. split; [exact Hx | apply IH, Hl].
Qed.

Lemma wf_value_align (n : nat) (vs : list pyval) :
  forallb wf_value vs = true -> forallb wf_value (align n vs) = true.
Proof.
  intros Hvs. unfold align. rewrite forallb_app, (forallb_take _ _ _ Hvs). simpl.
  induction (n - length vs)%nat as [|k IH]; [reflexivity | exact IH].
Qed.

Lemma wf_frame_text_set_column (f : DataFrame) (key : pystr) (vs : list pyval) :
  wf_frame_text f = true ->
  wf_text key = true ->
  forallb wf_value vs = true ->
  wf_frame_text (set_column f key vs) = true.
Proof.
  intros Hf Hkey Hvs. pose proof (wf_value_align (nrows f) vs Hvs) as Halign.
  unfold wf_frame_text, set_column in *.
  destruct (str_mem key (column_names f)); simpl.
  - rewrite forallb_map. revert Hf. apply forallb_impl. intros [k v] Hkv. simpl in *.
    destruct (str_eqb k key); [| exact Hkv]. simpl.
    apply andb_true_iff in Hkv. apply andb_true_iff. tauto.
  - rewrite forallb_app, Hf. simpl. rewrite Hkey, Halign. reflexivity.
Qed.

Lemma dictionaries_keys_wf : forallb wf_text (dict_keys dictionaries) = true.
Proof. vm_compute. reflexivity. Qed.

Lemma wf_label_values (statements : list pyval) :
  forallb wf_value (label_values statements) = true.
Proof.
  unfold label_values. rewrite forallb_map. apply forallb_forall.
  intros text _. simpl. apply forallb_forall. intros label Hin.
  pose proof dictionaries_keys_wf as Hkeys. rewrite forallb_forall in Hkeys.
  apply Hkeys. apply list_elem_of_In.
  apply (elem_of_sublist _ _ _ (proj2 (list_elem_of_In _ _) Hin)
           (matched_labels_sublist dictionaries (lower (py_str text)))).
Qed.

Lemma wf_flag_values (label : pystr) (statements : list pyval) :
  forallb wf_value (flag_values label statements) = true.
Proof.
  unfold flag_values. rewrite forallb_map. apply forallb_forall. reflexivity.
Qed.

Lemma wf_frame_text_add_flags (statements : list pyval) (labels : list pystr)
    (g : DataFrame) :
  forallb wf_text labels = true ->
  wf_frame_text g = true ->
  wf_frame_text (add_flags statements labels g) = true.
Proof.
  revert g. induction labels as [|l ls IH]; intros g Hls Hg; [exact Hg |].
  simpl in Hls. apply andb_true_iff in Hls. destruct Hls as [Hl Hls].
  apply (IH (set_column g l (flag_values l statements)) Hls).
  apply wf_frame_text_set_column; [exact Hg | exact Hl | apply wf_flag_values].
Qed.

Lemma wf_frame_text_enriched (f : DataFrame) (statements : list pyval) :
  wf_frame_text f = true -> wf_frame_text (enriched_frame f statements) = true.
Proof.
  intros Hf. unfold enriched_frame.
  apply wf_frame_text_add_flags; [apply dictionaries_keys_wf |].
  apply wf_frame_text_set_column; [exact Hf | reflexivity | apply wf_label_values].
Qed.

(** X7: what enrichment adds is well-formed text, so a table that can be
    exported can still be exported once enriched: [get_csv_download] on the
    result of [enrich_dataframe] returns, under any file name, and leaves the
    state as enrichment left it. *)
Theorem enrich_dataframe_then_download (st : state) (r : ref) (f : DataFrame) :
  heap st !! r = Some f ->
  wf_frame f ->
  wf_frame_text f = true ->
  In statement_column (column_names f) ->
  exists st1 r1 f1,
    enrich_dataframe r st = (st1, Ok r1) /\
    heap st1 !! r1 = Some f1 /\
    wf_frame_text f1 = true /\
    forall original_name,
      get_csv_download r1 original_name st1
      = (st1, Ok (utf8_bytes (to_csv f1),
                  path_stem original_name ++ py "_classified.csv")).
Proof.
  intros Hr Hwf Htext Hstmt.
  destruct (statement_column_values f Hwf Hstmt) as (statements & Hget & Hlen).
  eexists _, _, (enriched_frame f statements).
  split; [apply (enrich_dataframe_run r f statements st Hr Hget Hlen) |].
  assert (H1 : (heap st ++ [enriched_frame f statements]) !! length (heap st)
               = Some (enriched_frame f statements))
    by (apply list_lookup_middle; reflexivity).
  split; [exact H1 |].
  split; [apply wf_frame_text_enriched, Htext |].
  intros original_name. apply get_csv_download_run; [exact H1 |].
  apply wf_frame_text_enriched, Htext.
Qed.

(** ** More on [get_csv_download] *)

(** X8: [get_csv_download] reads its table and nothing more: whether it
    returns or raises, the state after the call is the state before it. *)
Theorem get_csv_download_state (r : ref) (original_name : pystr) (st : state) :
  fst (get_csv_download r original_name st) = st.
Proof.
  unfold get_csv_download, bind, get_frame.
  destruct (heap st !! r) as [f |]; [| reflexivity].
  unfold str_encode. rewrite utf8_literal_known.
  destruct (utf8_encode 0 (to_csv f)); reflexivity.
Qed.

Lemma split_on_parts (sep : N) (s part : pystr) :
  In part (split_on sep s) -> ~ In sep part.
Proof.
  revert part. induction s as [|c s IH]; intros part; simpl.
  - intros [<- | []]. intros [].
  - destruct (c =? sep) eqn:E.
    + intros [<- | H]; [intros [] | apply IH, H].
    + apply N.eqb_neq in E.
      destruct (split_on sep s) as [|p ps]; simpl.
      * intros [<- | []]. intros [H | []]. exact (E H).
      * intros [<- | H].
        -- intros [Hc | Hp]; [exact (E Hc) |]. apply (IH p); [left; reflexivity | exact Hp].
        -- apply IH. right. exact H.
Qed.

Lemma path_name_plain (path : pystr) : ~ In 47 (path_name path).
Proof.
  unfold path_name. destruct (last (path_parts path)) as [part |] eqn:Hlast; simpl.
  - apply last_Some in Hlast. destruct Hlast as (parts & Hparts).
    apply (split_on_parts 47 path).
    assert (Hin : In part (path_parts path))
      by (rewrite Hparts; apply in_or_app; right; left; reflexivity).
    unfold path_parts in Hin. apply filter_In in Hin. tauto.
  - intros [].
Qed.

Lemma In_take {A} (x : A) (n : nat) (l : list A) : In x (take n l) -> In x l.
Proof.
  revert n. induction l as [|y l IH]; intros [|n]; simpl; try tauto.
  intros [H | H]; [left; exact H | right; apply (IH n), H].
Qed.

Lemma path_stem_plain (path : pystr) : ~ In 47 (path_stem path).
Proof.
  pose proof (path_name_plain path) as Hname. unfold path_stem.
  destruct (rfind_dot (path_name path)) as [i |]; [| exact Hname].
  destruct ((0 <? i)%nat && (i <? length (path_name path) - 1)%nat); [| exact Hname].
  intros H. apply Hname. apply (In_take _ _ _ H).
Qed.

(** X9: the file name [get_csv_download] suggests is a plain file name, with
    no directory part: whatever the original name, a path with directories
    included, the suggestion has no slash, and it ends in
    [_classified.csv]. *)
Theorem get_csv_download_plain_name (r : ref) (original_name : pystr)
    (st st' : state) (csv_bytes : list byte) (new_name : pystr) :
  get_csv_download r original_name st = (st', Ok (csv_bytes, new_name)) ->
  ~ In 47 new_name /\
  exists stem,
    new_name = stem ++ py "_classified.csv" /\
    (exists suffix, path_name original_name = stem ++ suffix).
Proof.
  unfold get_csv_download, bind, get_frame.
  destruct (heap st !! r) as [f |]; [| discriminate].
  destruct (str_encode (to_csv f) utf8_literal st) as [st1 [bytes | e]];
    [| discriminate].
  unfold ret. intros [= _ _ <-]. split.
  - rewrite in_app_iff. intros [H | H]; [exact (path_stem_plain _ H) |].
    vm_compute in H. intuition discriminate.
  - exists (path_stem original_name). split; [reflexivity |].
    unfold path_stem. destruct (rfind_dot (path_name original_name)) as [i |].
    + destruct ((0 <? i)%nat && (i <? length (path_name original_name) - 1)%nat).
      * exists (drop i (path_name original_name)). symmetry. apply take_drop.
      * exists []. symmetry. apply app_nil_r.
    + exists []. symmetry. apply app_nil_r.
Qed.

Lemma utf8_cp_not_scalar (c : N) : is_scalar c = false -> utf8_cp c = None.
Proof.
  unfold is_scalar, utf8_cp. intros H.
  destruct (N.ltb_spec c 0x80); [exfalso |].
  { rewrite (proj2 (N.ltb_lt c 0x110000)) in H by lia.
    rewrite (proj2 (N.leb_gt 0xD800 c)) in H by lia. discriminate. }
  destruct (N.ltb_spec c 0x800); [exfalso |].
  { rewrite (proj2 (N.ltb_lt c 0x110000)) in H by lia.
    rewrite (proj2 (N.leb_gt 0xD800 c)) in H by lia. discriminate. }
  destruct (N.ltb_spec c 0x10000).
  - rewrite (proj2 (N.ltb_lt c 0x110000)) in H by lia.
    simpl in H. apply negb_false_iff in H. rewrite H. reflexivity.
  - destruct (N.ltb_spec c 0x110000); [| reflexivity].
    rewrite (proj2 (N.leb_gt c 0xDFFF)) in H by lia.
    rewrite andb_false_r in H. discriminate.
Qed.

(** Encoding stops at the first code point that is not a scalar value. *)
Lemma utf8_encode_error (s : pystr) (position : nat) :
  wf_text s = false ->
  exists k c,
    utf8_encode position s = Raise (UnicodeEncodeError (position + k)) /\
    s !! k = Some c /\
    is_scalar c = false /\
    wf_text (take k s) = true.
Proof.
  revert position. induction s as [|c s IH]; intros position; [discriminate |].
  simpl. destruct (is_scalar c) eqn:Hc; simpl.
  - intros Hs. destruct (IH (S position) Hs) as (k & c' & Hrun & Hk & Hc' & Hpre).
    exists (S k), c'. destruct (utf8_cp_scalar c Hc) as (bytes & ->).
    rewrite Hrun. replace (position + S k)%nat with (S position + k)%nat by lia.
    split; [reflexivity |]. split; [exact Hk |]. split; [exact Hc' |].
    simpl. rewrite Hc, Hpre. reflexivity.
  - intros _. exists 0%nat, c. rewrite (utf8_cp_not_scalar c Hc), Nat.add_0_r.
    repeat split; [exact Hc].
Qed.

(** X10: when the CSV text of the table has a code point that is not a
    scalar value (a lone surrogate), [get_csv_download] raises
    [UnicodeEncodeError] and reports the position of the first such code
    point in the text; no byte and no file name is returned. *)
Theorem get_csv_download_encoding_error (st : state) (r : ref) (f : DataFrame)
    (original_name : pystr) :
  heap st !! r = Some f ->
  wf_text (to_csv f) = false ->
  exists position c,
    get_csv_download r original_name st
    = (st, Raise (UnicodeEncodeError position)) /\
    to_csv f !! position = Some c /\
    is_scalar c = false /\
    wf_text (take position (to_csv f)) = true.
Proof.
  intros Hr Hbad.
  destruct (utf8_encode_error (to_csv f) 0 Hbad) as (k & c & Hrun & Hk & Hc & Hpre).
  exists k, c. split; [| repeat split; assumption].
  unfold get_csv_download.
  rewrite (bind_ok _ _ _ _ _ (get_frame_run r f st Hr)).
  apply bind_raise. unfold str_encode. rewrite utf8_literal_known, Hrun. reflexivity.
Qed.

(** ** The page script *)

Lemma and_then_show {B} (w : widget) (k : unit -> Script B) (st : state)
    (ws : list widget) :
  and_then (show w) k (st, ws) = k tt (st, ws ++ [w]).
Proof. reflexivity. Qed.

Lemma and_then_perform_ok {A B} (c : M A) (k : A -> Script B) (st st' : state)
    (ws : list widget) (a : A) :
  c st = (st', Ok a) -> and_then (perform c) k (st, ws) = k a (st', ws).
Proof. intros H. unfold and_then, perform. simpl. rewrite H. reflexivity. Qed.

Lemma and_then_perform_raise {A B} (c : M A) (k : A -> Script B) (st st' : state)
    (ws : list widget) (e : exn) :
  c st = (st', Raise e) ->
  and_then (perform c) k (st, ws) = ((st', ws), Crashed e).
Proof. intros H. unfold and_then, perform. simpl. rewrite H. reflexivity. Qed.

Lemma df_head_run (r : ref) (n : nat) (f : DataFrame) (st : state) :
  heap st !! r = Some f -> df_head r n st = (st, Ok (head n f)).
Proof.
  intros H. unfold df_head. rewrite (bind_ok _ _ _ _ _ (get_frame_run r f st H)).
  reflexivity.
Qed.

Lemma enrich_dataframe_missing_run (r : ref) (f : DataFrame) (st : state) :
  heap st !! r = Some f ->
  str_mem statement_column (column_names f) = false ->
  enrich_dataframe r st = (st, Raise (ValueError missing_statement_message)).
Proof.
  intros Hr Hmissing. unfold enrich_dataframe.
  rewrite (bind_ok _ _ _ _ _ (df_columns_run r f st Hr)), Hmissing. reflexivity.
Qed.

(** The sum of a column of flags is the number of statements with the
    label. *)
Lemma series_sum_flags (label : pystr) (statements : list pyval) (st : state) :
  series_sum (flag_values label statements) st
  = (st, Ok (category_count label statements)).
Proof.
  unfold category_count.
  induction statements as [|text rest IH]; [reflexivity |].
  cbn [flag_values map series_sum]. fold (flag_values label rest).
  rewrite (bind_ok _ _ _ _ _ IH). unfold ret. cbn [List.filter].
  destruct (str_mem label (labels_of text)); cbn [length]; f_equal; f_equal; lia.
Qed.

Lemma df_select_enriched (r : ref) (f : DataFrame) (statements : list pyval)
    (keys : list pystr) (st : state) :
  heap st !! r = Some (enriched_frame f statements) ->
  length statements = nrows f ->
  (forall key, In key keys -> In key (dict_keys dictionaries)) ->
  df_select r keys st
  = (st, Ok (map (fun key => (key, flag_values key statements)) keys)).
Proof.
  intros Hr Hlen. induction keys as [|key rest IH]; intros Hkeys; [reflexivity |].
  cbn [df_select map].
  rewrite (bind_ok _ _ _ _ _
             (df_getitem_run r _ key _ st Hr
                (get_enriched_flags f statements key Hlen
                   (Hkeys key (or_introl eq_refl))))).
  rewrite (bind_ok _ _ _ _ _ (IH (fun k Hk => Hkeys k (or_intror Hk)))).
  reflexivity.
Qed.

Lemma frame_sum_flags (statements : list pyval) (keys : list pystr) (st : state) :
  frame_sum (map (fun key => (key, flag_values key statements)) keys) st
  = (st, Ok (map (fun key => (key, VInt (category_count key statements))) keys)).
Proof.
  induction keys as [|key rest IH]; [reflexivity |].
  cbn [map frame_sum].
  rewrite (bind_ok _ _ _ _ _ (series_sum_flags key statements st)).
  rewrite (bind_ok _ _ _ _ _ IH). reflexivity.
Qed.

Lemma column_sums_enriched (r : ref) (f : DataFrame) (statements : list pyval)
    (keys : list pystr) (st : state) :
  heap st !! r = Some (enriched_frame f statements) ->
  length statements = nrows f ->
  (forall key, In key keys -> In key (dict_keys dictionaries)) ->
  column_sums r keys st
  = (st, Ok (map (fun key => (key, VInt (category_count key statements))) keys)).
Proof.
  intros Hr Hlen Hkeys. unfold column_sums.
  rewrite (bind_ok _ _ _ _ _ (df_select_enriched r f statements keys st Hr Hlen Hkeys)).
  apply frame_sum_flags.
Qed.

Lemma category_count_bounds (label : pystr) (statements : list pyval) :
  (0 <= category_count label statements <= Z.of_nat (length statements))%Z.
Proof.
  unfold category_count. split; [lia |].
  apply inj_le. induction statements as [|text rest IH]; simpl; [lia |].
  destruct (str_mem label (labels_of text)); simpl; lia.
Qed.

(** X11: the category counts.  On an enriched table, summing the boolean
    columns of the dictionary labels gives, for every label, the number of
    rows whose statement [classify_statement] gives that label; it lies
    between 0 and the number of rows, and the table is not modified. *)
Theorem column_sums_counts (st : state) (r : ref) (f : DataFrame) :
  heap st !! r = Some f ->
  wf_frame f ->
  In statement_column (column_names f) ->
  exists st' r' statements,
    enrich_dataframe r st = (st', Ok r') /\
    get_column (columns f) statement_column = Some statements /\
    column_sums r' (dict_keys dictionaries) st'
    = (st', Ok (map (fun label => (label, VInt (category_count label statements)))
                  (dict_keys dictionaries))) /\
    forall label,
      (0 <= category_count label statements <= Z.of_nat (nrows f))%Z /\
      category_count label statements
      = Z.of_nat (length (List.filter
                            (fun text =>
                               match snd (classify_statement text st) with
                               | Ok labels => str_mem label labels
                               | Raise _ => false
                               end)
                            statements)).
Proof.
  intros Hr Hwf Hstmt.
  destruct (statement_column_values f Hwf Hstmt) as (statements & Hget & Hlen).
  eexists _, _, statements.
  split; [apply (enrich_dataframe_run r f statements st Hr Hget Hlen) |].
  split; [exact Hget |].
  split.
  { apply (column_sums_enriched _ f statements); [| exact Hlen | tauto].
    simpl. apply list_lookup_middle. reflexivity. }
  intros label. rewrite <- Hlen. split; [apply category_count_bounds | reflexivity].
Qed.

(** X12: a table without a statement column.  The script shows the preview
    of the uploaded table, then the validation message of
    [enrich_dataframe] as an error, and stops there: no classified table, no
    counts, no download button, and no statement was classified. *)
Theorem streamlit_app_missing_statement (file : UploadedFile) (f : DataFrame)
    (st : state) :
  read_csv file = inr f ->
  ~ In statement_column (column_names f) ->
  run_app (Some file) st
  = ((mkState (heap st ++ [f]) (classified st),
      page_header ++
      [ Subheader (py "Preview of uploaded data");
        DataframeView (head 5 f) true;
        Error ([0x274C] ++ py " " ++ missing_statement_message) ]),
     Stopped).
Proof.
  intros Hread Hmissing. apply str_mem_not_In in Hmissing.
  unfold run_app, streamlit_app. rewrite Hread.
  rewrite !and_then_show.
  set (st1 := mkState (heap st ++ [f]) (classified st)).
  assert (H1 : heap st1 !! length (heap st) = Some f)
    by (apply list_lookup_middle; reflexivity).
  rewrite (and_then_perform_ok (new_frame f) _ st st1 _ (length (heap st)) eq_refl).
  rewrite and_then_show.
  rewrite (and_then_perform_ok _ _ _ _ _ _ (df_head_run _ 5 f st1 H1)).
  rewrite and_then_show.
  unfold and_then at 1, except_value_error, perform. cbn [fst snd].
  rewrite (enrich_dataframe_missing_run _ f st1 H1 Hmissing).
  reflexivity.
Qed.


Lemma enrich_dataframe_ok_statement (r r' : ref) (f : DataFrame) (st st' : state) :
  heap st !! r = Some f ->
  enrich_dataframe r st = (st', Ok r') ->
  In statement_column (column_names f).
Proof.
  intros Hr Hrun. apply str_mem_In.
  destruct (str_mem statement_column (column_names f)) eqn:E; [reflexivity |].
  rewrite (enrich_dataframe_missing_run r f st Hr E) in Hrun. discriminate.
Qed.

(** X14: what the page never shows.  Whatever is uploaded, a download button
    appears only in a run that reaches its end, after the counts, and only
    for an upload that was read as a table with a statement column; a run
    that stops ends on an error message and shows neither counts nor
    download button; a run that ends on an exception shows no download
    button either. *)
Theorem streamlit_app_download_guard (uploaded_file : option UploadedFile)
    (st st' : state) (ws : list widget) (out : outcome unit) :
  run_app uploaded_file st = ((st', ws), out) ->
  (existsb is_download_button ws = true ->
   out = Done tt /\
   existsb is_table_view ws = true /\
   exists file f,
     uploaded_file = Some file /\
     read_csv file = inr f /\
     In statement_column (column_names f)) /\
  (out = Stopped ->
   existsb is_download_button ws = false /\
   existsb is_table_view ws = false /\
   exists message, last ws = Some (Error message)) /\
  (forall e, out = Crashed e -> existsb is_download_button ws = false).
Proof.
  unfold run_app, streamlit_app. rewrite !and_then_show.
  destruct uploaded_file as [file |].
  2: { intros [= <- <- <-]. repeat split; discriminate. }
  destruct (read_csv file) as [message | f] eqn:Hread.
  { intros [= <- <- <-]. repeat split; try discriminate.
    exists ([0x274C] ++ py " Could not read the file: " ++ message). reflexivity. }
  set (st1 := mkState (heap st ++ [f]) (classified st)).
  assert (H1 : heap st1 !! length (heap st) = Some f)
    by (apply list_lookup_middle; reflexivity).
  rewrite (and_then_perform_ok (new_frame f) _ st st1 _ (length (heap st)) eq_refl).
  rewrite and_then_show.
  rewrite (and_then_perform_ok _ _ _ _ _ _ (df_head_run _ 5 f st1 H1)).
  rewrite and_then_show.
  unfold and_then at 1, except_value_error, perform. cbn [fst snd].
  destruct (enrich_dataframe (length (heap st)) st1) as [st2 [r2 | e]] eqn:Henrich.
  2: { destruct e; intros [= <- <- <-]; repeat split; try discriminate.
       eexists. reflexivity. }
  pose proof (enrich_dataframe_ok_statement _ _ f st1 st2 H1 Henrich) as Hstmt.
  rewrite and_then_show.
  destruct (df_head r2 10 st2) as [st3 [first_rows | e]] eqn:Hhead.
  2: { rewrite (and_then_perform_raise _ _ _ _ _ _ Hhead).
       intros [= <- <- <-]. repeat split; discriminate. }
  rewrite (and_then_perform_ok _ _ _ _ _ _ Hhead). rewrite !and_then_show.
  destruct (column_sums r2 [py "urgency_marketing"; py "exclusive_marketing"] st3)
    as [st4 [counts | e]] eqn:Hsums.
  2: { rewrite (and_then_perform_raise _ _ _ _ _ _ Hsums).
       intros [= <- <- <-]. repeat split; discriminate. }
  rewrite (and_then_perform_ok _ _ _ _ _ _ Hsums). rewrite and_then_show.
  destruct (get_csv_download r2 (name file) st4) as [st5 [download | e]] eqn:Hdown.
  2: { rewrite (and_then_perform_raise _ _ _ _ _ _ Hdown).
       intros [= <- <- <-]. repeat split; discriminate. }
  rewrite (and_then_perform_ok _ _ _ _ _ _ Hdown). rewrite and_then_show.
  intros [= <- <- <-]. repeat split; try discriminate.
  exists file, f. repeat split; assumption.
Qed.

(** X15: the derived columns are computed from the statements alone.  Two
    tables with the same statement column get the same [labels] column and
    the same boolean columns, whatever their other columns hold. *)
Theorem enrich_dataframe_statements_only (st1 st2 : state) (r1 r2 : ref)
    (f g : DataFrame) :
  heap st1 !! r1 = Some f ->
  heap st2 !! r2 = Some g ->
  wf_frame f ->
  wf_frame g ->
  In statement_column (column_names f) ->
  get_column (columns f) statement_column = get_column (columns g) statement_column ->
  exists st1' r1' f' st2' r2' g',
    enrich_dataframe r1 st1 = (st1', Ok r1') /\
    heap st1' !! r1' = Some f' /\
    enrich_dataframe r2 st2 = (st2', Ok r2') /\
    heap st2' !! r2' = Some g' /\
    forall column,
      In column derived_columns ->
      exists values,
        get_column (columns f') column = Some values /\
        get_column (columns g') column = Some values.
Proof.
  intros Hr1 Hr2 Hwf Hwg Hstmt Hsame.
  destruct (statement_column_values f Hwf Hstmt) as (statements & Hget & Hlen).
  assert (Hget' : get_column (columns g) statement_column = Some statements)
    by (rewrite <- Hsame; exact Hget).
  pose proof (wf_column_length g _ _ Hwg Hget') as Hlen'.
  eexists _, _, (enriched_frame f statements), _, _, (enriched_frame g statements).
  split; [apply (enrich_dataframe_run r1 f statements st1 Hr1 Hget Hlen) |].
  split; [simpl; apply list_lookup_middle; reflexivity |].
  split; [apply (enrich_dataframe_run r2 g statements st2 Hr2 Hget' Hlen') |].
  split; [simpl; apply list_lookup_middle; reflexivity |].
  intros column [<- | Hkey].
  - exists (label_values statements).
    split; apply get_enriched_labels; assumption.
  - exists (flag_values column statements).
    split; apply get_enriched_flags; assumption.
Qed.

Lemma csv_row_many (first second : pystr) (rest : list pystr) :
  csv_row (first :: second :: rest)
  = join [44] (map csv_field (first :: second :: rest)) ++ os_linesep.
Proof. unfold csv_row. destruct first; reflexivity. Qed.

(** X16: the header of the exported file.  For a table that has no column
    with a derived label, the CSV text of the enriched table starts with one
    record that lists the column labels of the input in their order, then
    [labels], then the dictionary labels. *)
Theorem enriched_csv_header (st : state) (r : ref) (f : DataFrame) :
  heap st !! r = Some f ->
  wf_frame f ->
  In statement_column (column_names f) ->
  (forall x, In x derived_columns -> ~ In x (column_names f)) ->
  exists st' r' f' records,
    enrich_dataframe r st = (st', Ok r') /\
    heap st' !! r' = Some f' /\
    to_csv f'
    = join [44]
        (map csv_field (column_names f ++ labels_column :: dict_keys dictionaries))
      ++ os_linesep ++ records.
Proof.
  intros Hr Hwf Hstmt Hfree.
  destruct (statement_column_values f Hwf Hstmt) as (statements & Hget & Hlen).
  eexists _, _, (enriched_frame f statements), _.
  split; [apply (enrich_dataframe_run r f statements st Hr Hget Hlen) |].
  split; [simpl; apply list_lookup_middle; reflexivity |].
  unfold to_csv.
  assert (Hnames : column_names (enriched_frame f statements)
                   = column_names f ++ labels_column :: dict_keys dictionaries).
  { unfold enriched_frame.
    assert (Hfirst : column_names (set_column f labels_column (label_values statements))
                     = column_names f ++ [labels_column]).
    { rewrite column_names_set_column.
      assert (str_mem labels_column (column_names f) = false) as ->; [| reflexivity].
      apply str_mem_not_In, Hfree. left. reflexivity. }
    rewrite column_names_add_flags_fresh.
    - rewrite Hfirst, <- app_assoc. reflexivity.
    - exact dictionaries_keys_NoDup.
    - intros x Hx. rewrite Hfirst, in_app_iff. intros [H | [H | []]].
      + apply (Hfree x); [right; exact Hx | exact H].
      + subst x. apply labels_column_not_key. exact Hx. }
  rewrite Hnames.
  destruct (column_names f) as [|first names] eqn:Hf; [destruct Hstmt |].
  assert (Hrow : csv_row ((first :: names) ++ labels_column :: dict_keys dictionaries)
                 = join [44]
                     (map csv_field
                        ((first :: names) ++ labels_column :: dict_keys dictionaries))
                   ++ os_linesep).
  { destruct names; apply csv_row_many. }
  rewrite Hrow, <- app_assoc. reflexivity.
Qed.

End Classifier.

(** * Instances on the sample data *)

Lemma sample_unicode_lower_high : lowercase_stays_high sample_unicode_lower.
Proof. intros c x Hc _ _ [<- | []]. exact Hc. Defined.

Lemma sample_frame_wf : wf_frame sample_frame.
Proof.
  split; [refine (bool_decide_unpack _ _); vm_compute; exact I | repeat constructor].
Defined.

Lemma sample_frame_statement : In statement_column (column_names sample_frame).
Proof. right. left. reflexivity. Defined.


Lemma enrich_dataframe_preserves_witness :
  heap (sample_state sample_frame) !! 0%nat = Some sample_frame /\
  wf_frame sample_frame /\
  In statement_column (column_names sample_frame) /\
  exists st' r' f',
    enrich_dataframe sample_unicode_lower sample_unicode_isprintable 0%nat
      (sample_state sample_frame) = (st', Ok r') /\
    heap st' !! r' = Some f' /\
    nrows f' = 2%nat /\
    get_column (columns f') (py "id") = Some [VInt 1; VInt 2] /\
    get_column (columns f') statement_column
    = get_column (columns sample_frame) statement_column /\
    (exists flags, get_column (columns f') (py "urgency_marketing")
                   = Some (map VBool flags)).
Proof.
  split; [reflexivity |].
  split; [exact sample_frame_wf |].
  split; [exact sample_frame_statement |].
  destruct (enrich_dataframe_preserves sample_unicode_lower sample_unicode_isprintable
              (sample_state sample_frame) 0%nat sample_frame
              eq_refl sample_frame_wf sample_frame_statement)
    as (st' & r' & f' & Hrun & Hf' & Hrows & Hkeep & _ & Hflags & Hall).
  exists st', r', f'.
  split; [exact Hrun |].
  split; [exact Hf' |].
  split; [exact Hrows |].
  split.
  { apply Hall; [| reflexivity].
    intros x Hx [Hin | [Hin | []]]; revert Hx; rewrite <- Hin;
      intros [Hx | [Hx | [Hx | []]]]; vm_compute in Hx; discriminate Hx. }
  split.
  { apply Hkeep.
    intros [Hx | [Hx | [Hx | []]]]; vm_compute in Hx; discriminate Hx. }
  destruct (Hflags (py "urgency_marketing") (or_introl eq_refl)) as (flags & Hcol & _).
  exists flags. exact Hcol.
Defined.

(** C3, as first stated, fails: a column of the input called [labels] does
    not survive enrichment. *)
Lemma enrich_dataframe_overwrites_labels :
  wf_frame sample_labelled_frame /\
  In statement_column (column_names sample_labelled_frame) /\
  get_column (columns sample_labelled_frame) labels_column
  = Some [VStr (py "reviewed")] /\
  exists st' r' f',
    enrich_dataframe sample_unicode_lower sample_unicode_isprintable 0%nat
      (sample_state sample_labelled_frame) = (st', Ok r') /\
    heap st' !! r' = Some f' /\
    get_column (columns f') labels_column = Some [VList [py "urgency_marketing"]] /\
    get_column (columns f') labels_column
    <> get_column (columns sample_labelled_frame) labels_column.
Proof.
  split.
  { split; [refine (bool_decide_unpack _ _); vm_compute; exact I | repeat constructor]. }
  split; [left; reflexivity |].
  split; [reflexivity |].
  eexists _, _, _.
  split; [vm_compute; reflexivity |].
  split; [reflexivity |].
  split; [reflexivity |].
  vm_compute. discriminate.
Qed.

Lemma enrich_dataframe_missing_column_witness :
  (heap (sample_state sample_empty_frame) !! 0%nat = Some sample_empty_frame /\
   nrows sample_empty_frame = 0%nat /\
   ~ In statement_column (column_names sample_empty_frame) /\
   enrich_dataframe sample_unicode_lower sample_unicode_isprintable 0%nat
     (sample_state sample_empty_frame)
   = (sample_state sample_empty_frame, Raise (ValueError missing_statement_message))) /\
  (heap (sample_state sample_other_frame) !! 0%nat = Some sample_other_frame /\
   nrows sample_other_frame = 3%nat /\
   ~ In statement_column (column_names sample_other_frame) /\
   enrich_dataframe sample_unicode_lower sample_unicode_isprintable 0%nat
     (sample_state sample_other_frame)
   = (sample_state sample_other_frame, Raise (ValueError missing_statement_message))).
Proof.
  assert (He : ~ In statement_column (column_names sample_empty_frame)).
  { intros [H | []]. vm_compute in H. discriminate H. }
  assert (Ho : ~ In statement_column (column_names sample_other_frame)).
  { intros [H | []]. vm_compute in H. discriminate H. }
  split; (split; [reflexivity |]); (split; [reflexivity |]).
  - split; [exact He |].
    exact (enrich_dataframe_missing_column sample_unicode_lower
             sample_unicode_isprintable (sample_state sample_empty_frame) 0%nat
             sample_empty_frame eq_refl He).
  - split; [exact Ho |].
    exact (enrich_dataframe_missing_column sample_unicode_lower
             sample_unicode_isprintable (sample_state sample_other_frame) 0%nat
             sample_other_frame eq_refl Ho).
Defined.

Lemma enrich_dataframe_flags_witness :
  heap (sample_state sample_frame) !! 0%nat = Some sample_frame /\
  wf_frame sample_frame /\
  In statement_column (column_names sample_frame) /\
  exists st' r' f' labels_series,
    enrich_dataframe sample_unicode_lower sample_unicode_isprintable 0%nat
      (sample_state sample_frame) = (st', Ok r') /\
    heap st' !! r' = Some f' /\
    get_column (columns f') labels_column = Some labels_series /\
    length labels_series = nrows f' /\
    forall label, In label (dict_keys dictionaries) ->
      exists flag_series,
        get_column (columns f') label = Some flag_series /\
        forall i, (i < nrows f')%nat ->
          exists cats b,
            labels_series !! i = Some (VList cats) /\
            flag_series !! i = Some (VBool b) /\
            (b = true <-> In label cats).
Proof.
  split; [reflexivity |].
  split; [exact sample_frame_wf |].
  split; [exact sample_frame_statement |].
  exact (enrich_dataframe_flags sample_unicode_lower sample_unicode_isprintable
           (sample_state sample_frame) 0%nat sample_frame
           eq_refl sample_frame_wf sample_frame_statement).
Defined.

Lemma enrich_dataframe_frame_witness :
  heap (sample_state sample_frame) !! 0%nat = Some sample_frame /\
  wf_frame sample_frame /\
  In statement_column (column_names sample_frame) /\
  exists st' r',
    enrich_dataframe sample_unicode_lower sample_unicode_isprintable 0%nat
      (sample_state sample_frame) = (st', Ok r') /\
    r' <> 0%nat /\
    heap (sample_state sample_frame) !! r' = None /\
    is_Some (heap st' !! r') /\
    heap st' !! 0%nat = Some sample_frame /\
    forall q g,
      heap (sample_state sample_frame) !! q = Some g -> heap st' !! q = Some g.
Proof.
  split; [reflexivity |].
  split; [exact sample_frame_wf |].
  split; [exact sample_frame_statement |].
  exact (enrich_dataframe_frame sample_unicode_lower sample_unicode_isprintable
           (sample_state sample_frame) 0%nat sample_frame
           eq_refl sample_frame_wf sample_frame_statement).
Defined.

Lemma enrich_dataframe_idempotent_witness :
  heap (sample_state sample_frame) !! 0%nat = Some sample_frame /\
  wf_frame sample_frame /\
  In statement_column (column_names sample_frame) /\
  exists st1 r1 f1,
    enrich_dataframe sample_unicode_lower sample_unicode_isprintable 0%nat
      (sample_state sample_frame) = (st1, Ok r1) /\
    heap st1 !! r1 = Some f1 /\
    forall st2 r2,
      heap st2 !! r2 = Some (enrich_labels_removed f1) ->
      exists st3 r3 f3,
        enrich_dataframe sample_unicode_lower sample_unicode_isprintable r2 st2
        = (st3, Ok r3) /\
        heap st3 !! r3 = Some f3 /\
        forall label, In label (dict_keys dictionaries) ->
          exists flags,
            get_column (columns f1) label = Some flags /\
            get_column (columns f3) label = Some flags.
Proof.
  split; [reflexivity |].
  split; [exact sample_frame_wf |].
  split; [exact sample_frame_statement |].
  exact (enrich_dataframe_idempotent sample_unicode_lower sample_unicode_isprintable
           (sample_state sample_frame) 0%nat sample_frame
           eq_refl sample_frame_wf sample_frame_statement).
Defined.



(** Text outside ASCII is classified like any other. *)
Example classify_accented :
  snd (classify_statement sample_unicode_lower sample_unicode_isprintable
         (VStr (py "Offre Pr" ++ [0xE9] ++ py "mium, acc" ++ [0xE8] ++ py "s VIP"))
         (sample_state sample_frame))
  = Ok [py "exclusive_marketing"].
Proof. vm_compute. reflexivity. Qed.

(** The CSV text of the enriched sample. *)
Example to_csv_sample :
  exists rows,
    to_csv sample_unicode_isprintable sample_enriched_frame
    = py "id,Statement,labels,urgency_marketing,exclusive_marketing" ++ [10] ++ rows /\
    rows
    = [49; 44; 34] ++ py "Limited time offer, act now!" ++ [34; 44]
      ++ py "['urgency_marketing'],True,False" ++ [10]
      ++ py "2,Join our exclusive VIP members only event,"
      ++ py "['exclusive_marketing'],False,True" ++ [10].
Proof. eexists. split; vm_compute; reflexivity. Qed.

(** * Further instances on the sample data *)

Lemma enrich_dataframe_row_labels_witness :
  heap (sample_state sample_frame) !! 0%nat = Some sample_frame /\
  wf_frame sample_frame /\
  In statement_column (column_names sample_frame) /\
  exists st' r' f' labels_series,
    enrich_dataframe sample_unicode_lower sample_unicode_isprintable 0%nat
      (sample_state sample_frame) = (st', Ok r') /\
    heap st' !! r' = Some f' /\
    get_column (columns f') labels_column = Some labels_series /\
    exists labels,
      labels_series !! 0%nat = Some (VList labels) /\
      snd (classify_statement sample_unicode_lower sample_unicode_isprintable
             (VStr (py "Limited time offer, act now!")) (sample_state sample_frame))
      = Ok labels.
Proof.
  split; [reflexivity |].
  split; [exact sample_frame_wf |].
  split; [exact sample_frame_statement |].
  destruct (enrich_dataframe_row_labels sample_unicode_lower sample_unicode_isprintable
              (sample_state sample_frame) 0%nat sample_frame
              eq_refl sample_frame_wf sample_frame_statement)
    as (st' & r' & f' & statements & labels_series
        & Hrun & Hf' & Hget & _ & Hlabels & Hrows).
  exists st', r', f', labels_series.
  split; [exact Hrun |]. split; [exact Hf' |]. split; [exact Hlabels |].
  injection Hget as <-.
  destruct (Hrows 0%nat _ eq_refl) as (labels & Hclass & Hcell & _).
  exists labels. split; [exact Hcell | apply Hclass].
Defined.

Lemma enrich_dataframe_classifies_once_witness :
  heap (sample_state sample_frame) !! 0%nat = Some sample_frame /\
  wf_frame sample_frame /\
  In statement_column (column_names sample_frame) /\
  exists st' r' statements,
    enrich_dataframe sample_unicode_lower sample_unicode_isprintable 0%nat
      (sample_state sample_frame) = (st', Ok r') /\
    get_column (columns sample_frame) statement_column = Some statements /\
    length statements = nrows sample_frame /\
    classified st' = classified (sample_state sample_frame) ++ statements.
Proof.
  split; [reflexivity |].
  split; [exact sample_frame_wf |].
  split; [exact sample_frame_statement |].
  exact (enrich_dataframe_classifies_once sample_unicode_lower
           sample_unicode_isprintable (sample_state sample_frame) 0%nat sample_frame
           eq_refl sample_frame_wf sample_frame_statement).
Defined.

Lemma enrich_dataframe_fixpoint_witness :
  heap (sample_state sample_frame) !! 0%nat = Some sample_frame /\
  wf_frame sample_frame /\
  In statement_column (column_names sample_frame) /\
  exists st1 r1 f1,
    enrich_dataframe sample_unicode_lower sample_unicode_isprintable 0%nat
      (sample_state sample_frame) = (st1, Ok r1) /\
    heap st1 !! r1 = Some f1 /\
    forall st2 r2,
      heap st2 !! r2 = Some f1 ->
      exists st3 r3,
        enrich_dataframe sample_unicode_lower sample_unicode_isprintable r2 st2
        = (st3, Ok r3) /\
        heap st3 !! r3 = Some f1.
Proof.
  split; [reflexivity |].
  split; [exact sample_frame_wf |].
  split; [exact sample_frame_statement |].
  exact (enrich_dataframe_fixpoint sample_unicode_lower sample_unicode_isprintable
           (sample_state sample_frame) 0%nat sample_frame
           eq_refl sample_frame_wf sample_frame_statement).
Defined.

Lemma sample_frame_no_derived :
  forall x, In x derived_columns -> ~ In x (column_names sample_frame).
Proof.
  intros x [<- | [<- | [<- | []]]] [H | [H | []]]; vm_compute in H; discriminate H.
Defined.

Lemma enrich_dataframe_columns_witness :
  heap (sample_state sample_frame) !! 0%nat = Some sample_frame /\
  wf_frame sample_frame /\
  In statement_column (column_names sample_frame) /\
  (forall x, In x derived_columns -> ~ In x (column_names sample_frame)) /\
  exists st' r' f',
    enrich_dataframe sample_unicode_lower sample_unicode_isprintable 0%nat
      (sample_state sample_frame) = (st', Ok r') /\
    heap st' !! r' = Some f' /\
    wf_frame f' /\
    column_names f'
    = [ py "id"; py "Statement"; py "labels"; py "urgency_marketing";
        py "exclusive_marketing" ].
Proof.
  split; [reflexivity |].
  split; [exact sample_frame_wf |].
  split; [exact sample_frame_statement |].
  split; [exact sample_frame_no_derived |].
  destruct (enrich_dataframe_columns sample_unicode_lower sample_unicode_isprintable
              (sample_state sample_frame) 0%nat sample_frame
              eq_refl sample_frame_wf sample_frame_statement)
    as (st' & r' & f' & Hrun & Hf' & Hwf & Hnames).
  exists st', r', f'.
  split; [exact Hrun |]. split; [exact Hf' |]. split; [exact Hwf |].
  exact (Hnames sample_frame_no_derived).
Defined.

Lemma enrich_dataframe_head_witness :
  heap (sample_state sample_frame) !! 0%nat = Some sample_frame /\
  wf_frame sample_frame /\
  In statement_column (column_names sample_frame) /\
  exists st1 r1 f1,
    enrich_dataframe sample_unicode_lower sample_unicode_isprintable 0%nat
      (sample_state sample_frame) = (st1, Ok r1) /\
    heap st1 !! r1 = Some f1 /\
    exists st3 r3,
      enrich_dataframe sample_unicode_lower sample_unicode_isprintable 0%nat
        (sample_state (head 1 sample_frame)) = (st3, Ok r3) /\
      heap st3 !! r3 = Some (head 1 f1).
Proof.
  split; [reflexivity |].
  split; [exact sample_frame_wf |].
  split; [exact sample_frame_statement |].
  destruct (enrich_dataframe_head sample_unicode_lower sample_unicode_isprintable
              (sample_state sample_frame) 0%nat sample_frame
              eq_refl sample_frame_wf sample_frame_statement)
    as (st1 & r1 & f1 & Hrun & Hf1 & Hhead).
  exists st1, r1, f1.
  split; [exact Hrun |]. split; [exact Hf1 |].
  exact (Hhead 1%nat (sample_state (head 1 sample_frame)) 0%nat eq_refl).
Defined.

Lemma enrich_dataframe_then_download_witness :
  heap (sample_state sample_frame) !! 0%nat = Some sample_frame /\
  wf_frame sample_frame /\
  wf_frame_text sample_frame = true /\
  In statement_column (column_names sample_frame) /\
  exists st1 r1 f1,
    enrich_dataframe sample_unicode_lower sample_unicode_isprintable 0%nat
      (sample_state sample_frame) = (st1, Ok r1) /\
    heap st1 !! r1 = Some f1 /\
    wf_frame_text f1 = true /\
    forall original_name,
      get_csv_download sample_unicode_isprintable r1 original_name st1
      = (st1, Ok (utf8_bytes (to_csv sample_unicode_isprintable f1),
                  path_stem original_name ++ py "_classified.csv")).
Proof.
  split; [reflexivity |].
  split; [exact sample_frame_wf |].
  split; [reflexivity |].
  split; [exact sample_frame_statement |].
  exact (enrich_dataframe_then_download sample_unicode_lower sample_unicode_isprintable
           (sample_state sample_frame) 0%nat sample_frame
           eq_refl sample_frame_wf eq_refl sample_frame_statement).
Defined.

Lemma sample_download :
  get_csv_download sample_unicode_isprintable 0%nat (py "uploads/report.v2.csv")
    (sample_state sample_enriched_frame)
  = (sample_state sample_enriched_frame,
     Ok (utf8_bytes (to_csv sample_unicode_isprintable sample_enriched_frame),
         py "report.v2_classified.csv")).
Proof. vm_compute. reflexivity. Defined.

Lemma get_csv_download_plain_name_witness :
  get_csv_download sample_unicode_isprintable 0%nat (py "uploads/report.v2.csv")
    (sample_state sample_enriched_frame)
  = (sample_state sample_enriched_frame,
     Ok (utf8_bytes (to_csv sample_unicode_isprintable sample_enriched_frame),
         py "report.v2_classified.csv")) /\
  ~ In 47 (py "report.v2_classified.csv") /\
  exists stem,
    py "report.v2_classified.csv" = stem ++ py "_classified.csv" /\
    (exists suffix, path_name (py "uploads/report.v2.csv") = stem ++ suffix).
Proof.
  split; [exact sample_download |].
  exact (get_csv_download_plain_name sample_unicode_isprintable 0%nat
           (py "uploads/report.v2.csv") (sample_state sample_enriched_frame)
           (sample_state sample_enriched_frame) _ _ sample_download).
Defined.

Lemma get_csv_download_encoding_error_witness :
  heap (sample_state sample_surrogate_frame) !! 0%nat = Some sample_surrogate_frame /\
  wf_text (to_csv sample_unicode_isprintable sample_surrogate_frame) = false /\
  exists position c,
    get_csv_download sample_unicode_isprintable 0%nat (py "data.csv")
      (sample_state sample_surrogate_frame)
    = (sample_state sample_surrogate_frame, Raise (UnicodeEncodeError position)) /\
    to_csv sample_unicode_isprintable sample_surrogate_frame !! position = Some c /\
    is_scalar c = false /\
    wf_text (take position (to_csv sample_unicode_isprintable sample_surrogate_frame))
    = true.
Proof.
  split; [reflexivity |].
  split; [reflexivity |].
  exact (get_csv_download_encoding_error sample_unicode_isprintable
           (sample_state sample_surrogate_frame) 0%nat sample_surrogate_frame
           (py "data.csv") eq_refl eq_refl).
Defined.

Lemma column_sums_counts_witness :
  heap (sample_state sample_frame) !! 0%nat = Some sample_frame /\
  wf_frame sample_frame /\
  In statement_column (column_names sample_frame) /\
  exists st' r' statements,
    enrich_dataframe sample_unicode_lower sample_unicode_isprintable 0%nat
      (sample_state sample_frame) = (st', Ok r') /\
    get_column (columns sample_frame) statement_column = Some statements /\
    column_sums r' (dict_keys dictionaries) st'
    = (st', Ok (map (fun label =>
                       (label,
                        VInt (category_count sample_unicode_lower
                                sample_unicode_isprintable label statements)))
                  (dict_keys dictionaries))).
Proof.
  split; [reflexivity |].
  split; [exact sample_frame_wf |].
  split; [exact sample_frame_statement |].
  destruct (column_sums_counts sample_unicode_lower sample_unicode_isprintable
              (sample_state sample_frame) 0%nat sample_frame
              eq_refl sample_frame_wf sample_frame_statement)
    as (st' & r' & statements & Hrun & Hget & Hsums & _).
  exists st', r', statements. repeat split; assumption.
Defined.

Lemma sample_other_frame_no_statement :
  ~ In statement_column (column_names sample_other_frame).
Proof. intros [H | []]. vm_compute in H. discriminate H. Defined.

Lemma streamlit_app_missing_statement_witness :
  read_csv (sample_upload sample_other_frame) = inr sample_other_frame /\
  ~ In statement_column (column_names sample_other_frame) /\
  run_app sample_unicode_lower sample_unicode_isprintable
    (Some (sample_upload sample_other_frame)) (mkState [] [])
  = ((mkState [sample_other_frame] [],
      page_header ++
      [ Subheader (py "Preview of uploaded data");
        DataframeView (head 5 sample_other_frame) true;
        Error ([0x274C] ++ py " " ++ missing_statement_message) ]),
     Stopped).
Proof.
  split; [reflexivity |].
  split; [exact sample_other_frame_no_statement |].
  exact (streamlit_app_missing_statement sample_unicode_lower
           sample_unicode_isprintable (sample_upload sample_other_frame)
           sample_other_frame (mkState [] []) eq_refl
           sample_other_frame_no_statement).
Defined.


Lemma streamlit_app_download_guard_witness :
  exists st' ws,
    run_app sample_unicode_lower sample_unicode_isprintable
      (Some (sample_upload sample_frame)) (mkState [] [])
    = ((st', ws), Done tt) /\
    existsb is_download_button ws = true /\
    existsb is_table_view ws = true /\
    exists file f,
      Some (sample_upload sample_frame) = Some file /\
      read_csv file = inr f /\
      In statement_column (column_names f).
Proof.
  eexists _, _.
  assert (Hrun : run_app sample_unicode_lower sample_unicode_isprintable
                   (Some (sample_upload sample_frame)) (mkState [] [])
                 = ((_, _), Done tt)) by (vm_compute; reflexivity).
  split; [exact Hrun |].
  assert (Hshown : existsb is_download_button
                     (snd (fst (run_app sample_unicode_lower sample_unicode_isprintable
                                  (Some (sample_upload sample_frame)) (mkState [] []))))
                   = true) by (vm_compute; reflexivity).
  rewrite Hrun in Hshown. split; [exact Hshown |].
  destruct (proj1 (streamlit_app_download_guard sample_unicode_lower
                     sample_unicode_isprintable _ _ _ _ _ Hrun) Hshown)
    as (_ & Htable & Hfile).
  split; [exact Htable | exact Hfile].
Defined.

Lemma sample_labelled_frame_wf : wf_frame sample_labelled_frame.
Proof.
  split; [refine (bool_decide_unpack _ _); vm_compute; exact I | repeat constructor].
Defined.

Lemma sample_bare_frame_wf : wf_frame sample_bare_frame.
Proof.
  split; [refine (bool_decide_unpack _ _); vm_compute; exact I | repeat constructor].
Defined.

Lemma enrich_dataframe_statements_only_witness :
  heap (sample_state sample_labelled_frame) !! 0%nat = Some sample_labelled_frame /\
  heap (sample_state sample_bare_frame) !! 0%nat = Some sample_bare_frame /\
  wf_frame sample_labelled_frame /\
  wf_frame sample_bare_frame /\
  In statement_column (column_names sample_labelled_frame) /\
  get_column (columns sample_labelled_frame) statement_column
  = get_column (columns sample_bare_frame) statement_column /\
  exists st1' r1' f' st2' r2' g',
    enrich_dataframe sample_unicode_lower sample_unicode_isprintable 0%nat
      (sample_state sample_labelled_frame) = (st1', Ok r1') /\
    heap st1' !! r1' = Some f' /\
    enrich_dataframe sample_unicode_lower sample_unicode_isprintable 0%nat
      (sample_state sample_bare_frame) = (st2', Ok r2') /\
    heap st2' !! r2' = Some g' /\
    forall column,
      In column derived_columns ->
      exists values,
        get_column (columns f') column = Some values /\
        get_column (columns g') column = Some values.
Proof.
  split; [reflexivity |].
  split; [reflexivity |].
  split; [exact sample_labelled_frame_wf |].
  split; [exact sample_bare_frame_wf |].
  split; [left; reflexivity |].
  split; [reflexivity |].
  exact (enrich_dataframe_statements_only sample_unicode_lower
           sample_unicode_isprintable
           (sample_state sample_labelled_frame) (sample_state sample_bare_frame)
           0%nat 0%nat sample_labelled_frame sample_bare_frame
           eq_refl eq_refl sample_labelled_frame_wf sample_bare_frame_wf
           (or_introl eq_refl) eq_refl).
Defined.

Lemma enriched_csv_header_witness :
  heap (sample_state sample_frame) !! 0%nat = Some sample_frame /\
  wf_frame sample_frame /\
  In statement_column (column_names sample_frame) /\
  (forall x, In x derived_columns -> ~ In x (column_names sample_frame)) /\
  exists st' r' f' records,
    enrich_dataframe sample_unicode_lower sample_unicode_isprintable 0%nat
      (sample_state sample_frame) = (st', Ok r') /\
    heap st' !! r' = Some f' /\
    to_csv sample_unicode_isprintable f'
    = py "id,Statement,labels,urgency_marketing,exclusive_marketing" ++ [10]
      ++ records.
Proof.
  split; [reflexivity |].
  split; [exact sample_frame_wf |].
  split; [exact sample_frame_statement |].
  split; [exact sample_frame_no_derived |].
  exact (enriched_csv_header sample_unicode_lower sample_unicode_isprintable
           (sample_state sample_frame) 0%nat sample_frame
           eq_refl sample_frame_wf sample_frame_statement sample_frame_no_derived).
Defined.
